(** * ChatMistralAI: message translation, response decoding and stream aggregation

    A shallow embedding of [libs/langchain-mistralai/src/chat_models.ts].
    The file under study holds two revisions of the module.  For what is
    modelled here they differ in [getContent] only (and in the spelling of
    the provider's [tool_calls] property, [toolCalls] in the second); the
    first [getContent] lives in [Rev1], the second in [Rev2], and line
    numbers are those of the first revision unless they are above 1300.

    JavaScript values are modelled by their TypeScript types: a property
    that may be [undefined] or [null] is an [option], a thrown error is the
    [Throw] branch of [result], a string is a [string].  Functions of other
    packages ([uuid], @langchain/core, [./utils.js]) are variables of the
    section that holds the code using them. *)

From Stdlib Require Import ZArith List String Ascii Bool Lia.
From Stdlib Require Import Permutation Sorted.
From Stdlib Require Import DecimalString DecimalPos DecimalZ.
Import ListNotations.

Local Open Scope Z_scope.
Local Open Scope string_scope.
Local Open Scope list_scope.

(** ** Thrown errors and the error monad *)

(** The [MessageContent] of @langchain/core: a string or an array of
    content parts.  A part is an object with a [type] tag; [text] and
    [image_url] are read with optional chaining, so they may be absent. *)
Record MessageContentComplex := mkPart {
  part_type : string;
  part_text : option string;
  part_image_url : option string
}.

Inductive MessageContent :=
| ContentString (s : string)
| ContentArray (parts : list MessageContentComplex).

(** An error object thrown by the provider's SDK, as the code reads and
    writes it: its [message] and its [status]. *)
Record JsError := mkJsError {
  err_message : option string;
  err_status : option Z
}.

(** Every [throw new Error(...)] of the translation code, one constructor
    per throw site.  [UnknownMessageType role] is the error whose text is
    "Unknown message type: " followed by [role]; the content-shape errors
    carry the content that the source prints with [JSON.stringify]. *)
Inductive Error :=
| UnknownMessageType (role : string)
| HumanContentUnsupported (content : MessageContent)
| SystemContentUnsupported (content : MessageContent)
| NonTextContentUnsupported (content : MessageContent)
| ContentChunkUnsupported (content : MessageContent)
| NoMessageFound
| AbortError
| TypeError (what : string)
| TransportFailure (e : JsError).

(** The errors that report a content part that its role does not allow. *)
Definition isContentShapeError (e : Error) : bool :=
  match e with
  | HumanContentUnsupported _ | SystemContentUnsupported _
  | NonTextContentUnsupported _ | ContentChunkUnsupported _ => true
  | _ => false
  end.

Inductive result (A : Type) :=
| Ok (a : A)
| Throw (e : Error).

Arguments Ok {A} a.
Arguments Throw {A} e.

Definition bind {A B : Type} (r : result A) (k : A -> result B) : result B :=
  match r with
  | Ok a => k a
  | Throw e => Throw e
  end.

Notation "x <- r ;; k" := (bind r (fun x => k))
  (at level 61, r at next level, right associativity).

(** [Array.prototype.map] with a callback that may throw: the callback runs
    on the elements in order and the first throw aborts the whole map. *)
Fixpoint mapM {A B : Type} (f : A -> result B) (l : list A) : result (list B) :=
  match l with
  | [] => Ok []
  | x :: l' =>
      y <- f x ;;
      ys <- mapM f l' ;;
      Ok (y :: ys)
  end.

(** ** Outbound translation: roles and content *)

(** Lines 168-183 (and 1514-1529). *)
Definition getRole (role : string) : result string :=
  if role =? "human" then Ok "user"
  else if role =? "ai" then Ok "assistant"
  else if role =? "system" then Ok "system"
  else if role =? "tool" then Ok "tool"
  else if role =? "function" then Ok "assistant"
  else Throw (UnknownMessageType role).

(** The provider's [ContentChunk]. *)
Inductive ContentChunk :=
| TextChunk (text : option string)
| ImageURLChunk (imageUrl : option string).

Inductive MistralContent :=
| MistralString (s : string)
| MistralChunks (chunks : list ContentChunk).

Module Rev1.

(** Lines 185-243.  [MessageContent] has no third alternative, so the last
    [throw] is reached exactly by an array under a role that is neither
    user nor system. *)
Definition getContent (content : MessageContent) (role : string)
  : result MistralContent :=
  mistralRole <- getRole role ;;
  match content with
  | ContentString s => Ok (MistralString s)
  | ContentArray parts =>
      if mistralRole =? "user" then
        chunks <- mapM (fun messageContentComplex =>
          if part_type messageContentComplex =? "image_url" then
            Ok (ImageURLChunk (part_image_url messageContentComplex))
          else if part_type messageContentComplex =? "text" then
            Ok (TextChunk (part_text messageContentComplex))
          else Throw (HumanContentUnsupported content)) parts ;;
        Ok (MistralChunks chunks)
      else if mistralRole =? "system" then
        chunks <- mapM (fun messageContentComplex =>
          if part_type messageContentComplex =? "text" then
            Ok (TextChunk (part_text messageContentComplex))
          else Throw (SystemContentUnsupported content)) parts ;;
        Ok (MistralChunks chunks)
      else Throw (NonTextContentUnsupported content)
  end.

End Rev1.

Module Rev2.

(** Lines 1534-1557: the helper closed over [content]. *)
Definition _generateContentChunk (content : MessageContent)
  (complex : MessageContentComplex) (role : string) : result ContentChunk :=
  if (part_type complex =? "image_url") && (role =? "user") then
    Ok (ImageURLChunk (part_image_url complex))
  else if (part_type complex =? "text")
          && ((role =? "user") || (role =? "system")) then
    Ok (TextChunk (part_text complex))
  else Throw (ContentChunkUnsupported content).

(** Lines 1531-1577.  Every [MessageContent] is a string or an array, so
    the [throw] of lines 1569-1576 is never reached. *)
Definition getContent (content : MessageContent) (role : string)
  : result MistralContent :=
  mistralRole <- getRole role ;;
  match content with
  | ContentString s => Ok (MistralString s)
  | ContentArray parts =>
      chunks <- mapM (fun messageContentComplex =>
        _generateContentChunk content messageContentComplex mistralRole)
        parts ;;
      Ok (MistralChunks chunks)
  end.

End Rev2.

(** What the content-shape claims call a text part and an image-reference
    part. *)
Definition isTextPart (p : MessageContentComplex) : bool :=
  part_type p =? "text".

Definition isImagePart (p : MessageContentComplex) : bool :=
  part_type p =? "image_url".

(** ** The data of the module *)

#[local] Unset Elimination Schemes.

(** A JSON value, the type of tool-call arguments that are objects;
    numbers are kept as their literals. *)
Inductive Json :=
| JNull
| JBool (b : bool)
| JNumber (literal : string)
| JString (s : string)
| JArray (items : list Json)
| JObject (fields : list (string * Json)).

#[local] Set Elimination Schemes.

(** The [arguments] of a provider function call: already a string, or an
    object still to be serialized. *)
Inductive Arguments_ :=
| ArgsString (s : string)
| ArgsObject (j : Json).

(** The [function] of a provider tool call; [arguments] is read so that it
    may be [undefined]. *)
Record FunctionCall := mkFunctionCall {
  fn_name : string;
  fn_arguments : option Arguments_
}.

(** The provider's [ToolCall] (the SDK's [MistralAIToolCall]): an id that
    may be missing and the function called; its [type] is always the
    constant "function" and is left out. *)
Record MistralAIToolCall := mkMistralAIToolCall {
  tc_id : option string;
  tc_function : option FunctionCall
}.

(** The framework's [ToolCall]. *)
Record ToolCall := mkToolCall {
  call_name : string;
  call_args : Json;
  call_id : option string
}.

(** A [BaseMessage] as the builder reads it: [_getType()], [content],
    [name], [tool_call_id] ([Some] exactly when the property is there and is
    a string), the [tool_calls] of an AI message and the legacy
    [additional_kwargs.tool_calls]. *)
Record BaseMessage := mkBaseMessage {
  msg_type : string;
  msg_content : MessageContent;
  msg_name : option string;
  msg_tool_call_id : option string;
  msg_tool_calls : option (list ToolCall);
  msg_kwargs_tool_calls : option (list MistralAIToolCall)
}.

(** The three object literals returned at lines 270-277, 280-284 and
    287-290. *)
Inductive MistralAIMessage :=
| ToolResultMessage (role : string) (content : MistralContent)
    (name : option string) (toolCallId : string)
| AssistantMessage (role : string) (content : MistralContent)
    (toolCalls : option (list MistralAIToolCall))
| PlainMessage (role : string) (content : MistralContent).

(** The provider's [UsageInfo] and the framework's [usage_metadata]. *)
Record UsageInfo := mkUsageInfo {
  promptTokens : Z;
  completionTokens : Z;
  totalTokens : Z
}.

Record UsageMetadata := mkUsageMetadata {
  input_tokens : Z;
  output_tokens : Z;
  total_tokens : Z
}.

(** What a call of @langchain/core's [parseToolCall] does: it returns a
    parsed call, returns [undefined] (a raw call with no [function]), or
    throws an error with a message. *)
Inductive ParseOutcome :=
| ParseReturns (parsed : option ToolCall)
| ParseThrows (message : string).

(** A message of a response choice: role, content and, when the property
    is there and is an array, the raw tool calls. *)
Record ResponseMessage := mkResponseMessage {
  resp_role : option string;
  resp_content : option MistralContent;
  resp_tool_calls : option (list MistralAIToolCall)
}.

(** A choice of a complete response; its [message] may be [undefined]. *)
Record ResponseChoice := mkResponseChoice {
  choice_message : option ResponseMessage
}.

(** The delta of a streamed choice, lines 345-349: each property may be
    absent or null. *)
Record Delta := mkDelta {
  delta_role : option string;
  delta_content : option string;
  delta_tool_calls : option (list MistralAIToolCall)
}.

(** A raw tool call after lines 370-379: position and id filled in. *)
Record IndexedToolCall := mkIndexedToolCall {
  itc_function : option FunctionCall;
  itc_index : nat;
  itc_id : string
}.

(** The framework's [ToolCallChunk], as built at lines 395-401. *)
Record ToolCallChunk := mkToolCallChunk {
  chunk_name : option string;
  chunk_args : option string;
  chunk_id : string;
  chunk_index : nat
}.

(** The chunk classes of @langchain/core with the fields the code passes;
    [additional_kwargs] is [undefined] ([None]) or the empty object, and
    [tool_call_chunks] is [None] where the constructor call omits it. *)
Inductive MessageChunk :=
| AIMessageChunk (content : string)
    (tool_call_chunks : option (list ToolCallChunk))
    (additional_kwargs : option unit)
    (usage_metadata : option UsageMetadata)
| HumanMessageChunk (content : string)
| ToolMessageChunk (content : string) (additional_kwargs : option unit)
    (tool_call_id : string)
| FunctionMessageChunk (content : string) (additional_kwargs : option unit)
| ChatMessageChunk (content : string) (role : string).

(** How [client.chat.stream] or [client.chat.complete] ends. *)
Inductive Completion (R : Type) :=
| Returned (res : R)
| Thrown (e : JsError).

Arguments Returned {R} res.
Arguments Thrown {R} e.

(** The model instance and the per-call options, as far as usage
    reporting goes. *)
Record ChatMistralAIInput := mkChatMistralAIInput {
  fields_streamUsage : option bool
}.

Record ChatMistralAI := mkChatMistralAI {
  streamUsage : bool
}.

Record CallOptions := mkCallOptions {
  options_streamUsage : option bool
}.

(** The [delta] property of a streamed choice: missing, present but
    nullish, or a delta. *)
Inductive DeltaSlot :=
| DeltaMissing
| DeltaNullish
| DeltaPresent (delta : Delta).

(** A choice of a streamed event and the event's payload. *)
Record StreamChoice := mkStreamChoice {
  choice_index : option Z;
  choice_delta : DeltaSlot
}.

Record CompletionChunk := mkCompletionChunk {
  choices : list StreamChoice;
  usage : option UsageInfo
}.

(** The [generationInfo] of a streamed chunk (lines 1070-1073) and the
    [ChatGenerationChunk] built at lines 1083-1087. *)
Record NewTokenIndices := mkNewTokenIndices {
  prompt : Z;
  completion : option Z
}.

Record ChatGenerationChunk := mkChatGenerationChunk {
  gen_message : MessageChunk;
  gen_text : string;
  generationInfo : option NewTokenIndices
}.

(** A plain JavaScript object used as a record: its own properties in the
    order they were created. *)
Definition JsObject (V : Type) : Type := list (string * V).

(** ** Closed instances for the worked examples *)

Module Sample.

(** A serializer that knows the empty object and strings. *)
Definition JSON_stringify (j : Json) : string :=
  match j with
  | JObject [] => "{}"
  | JString s => s
  | _ => "null"
  end.

(** Ids coerced by the identity; a counter as the id generator. *)
Definition coerceId (id : string) : string := id.

Definition Rng : Type := nat.

Definition uuidv4 (n : Rng) : string * Rng :=
  (("1b9d6bcd-bbfd-4b2d-9b5d-" ++ NilZero.string_of_uint (Nat.to_uint n))%string,
   S n).

Definition toOpenAI (call : ToolCall) : MistralAIToolCall :=
  mkMistralAIToolCall (call_id call)
    (Some (mkFunctionCall (call_name call)
             (Some (ArgsString (JSON_stringify (call_args call)))))).

(** A parser that accepts the empty object and rejects everything else the
    way [JSON.parse] rejects a truncated text. *)
Definition parseToolCall (raw : MistralAIToolCall) : ParseOutcome :=
  match tc_function raw with
  | None => ParseReturns None
  | Some f =>
      match fn_arguments f with
      | Some (ArgsString s) =>
          if s =? "{}"
          then ParseReturns (Some (mkToolCall (fn_name f) (JObject []) (tc_id raw)))
          else ParseThrows "Unexpected end of JSON input"
      | _ => ParseThrows "Unexpected end of JSON input"
      end
  end.

Definition InvalidToolCall : Type := (MistralAIToolCall * string)%type.

Definition makeInvalidToolCall (raw : MistralAIToolCall) (message : string)
  : InvalidToolCall := (raw, message).

(** Concatenation on the text alone. *)
Definition concat (a b : ChatGenerationChunk) : ChatGenerationChunk :=
  mkChatGenerationChunk (gen_message a) (gen_text a ++ gen_text b)%string
    (generationInfo a).

Definition chunk (index : Z) (text : string) : ChatGenerationChunk :=
  mkChatGenerationChunk (AIMessageChunk text (Some []) (Some tt) None) text
    (Some (mkNewTokenIndices 0 (Some index))).

(** Chunks arriving for the choices 0, 1, 0, 2, 1, 0. *)
Definition stream : list ChatGenerationChunk :=
  [chunk 0 "a"; chunk 1 "x"; chunk 0 "b"; chunk 2 "p"; chunk 1 "y"; chunk 0 "c"].

Definition goodCall : MistralAIToolCall :=
  mkMistralAIToolCall (Some "call00001")
    (Some (mkFunctionCall "lookup" (Some (ArgsString "{}")))).

Definition anonymousCall : MistralAIToolCall :=
  mkMistralAIToolCall None
    (Some (mkFunctionCall "lookup" (Some (ArgsString "{}")))).

Definition brokenCall : MistralAIToolCall :=
  mkMistralAIToolCall (Some "call00002")
    (Some (mkFunctionCall "lookup" (Some (ArgsString "{")))).

Definition response : ResponseMessage :=
  mkResponseMessage (Some "assistant") None
    (Some [goodCall; brokenCall; anonymousCall]).

Definition toolDelta : Delta :=
  mkDelta (Some "tool") (Some "42") (Some [goodCall; anonymousCall]).

Definition messages : list BaseMessage :=
  [ mkBaseMessage "system" (ContentString "be brief") None None None None;
    mkBaseMessage "human"
      (ContentArray [mkPart "text" (Some "hi") None;
                     mkPart "image_url" None (Some "https://example.org/a.png")])
      None None None None;
    mkBaseMessage "ai" (ContentString "") None None
      (Some [mkToolCall "lookup" (JObject []) (Some "call00001")]) None;
    mkBaseMessage "tool" (ContentString "42") (Some "lookup")
      (Some "call00001") None None ].

End Sample.

(** ** The rest of the module, over its collaborators *)

Section ChatMistralAI.

Set Default Proof Using "Type".

(** [JSON.stringify], the runtime's serializer. *)
Variable JSON_stringify : Json -> string.

(** [./utils.js], not part of the file under study: a pure string
    transform to the provider's tool-call id format. *)
Variable _convertToolCallIdToMistralCompatible : string -> string.

(** The [uuid] package: [uuidv4] draws from a generator, here a state. *)
Variable Rng : Type.
Variable uuidv4 : Rng -> string * Rng.

(** *** Tool calls *)

(** @langchain/core's [convertLangChainToolCallToOpenAI]; it is only ever
    applied to a call whose id has just been set. *)
Variable convertLangChainToolCallToOpenAI : ToolCall -> MistralAIToolCall.

(** *** Outbound messages *)

(** @langchain/core's [isAIMessage]: the message's type is "ai". *)
Definition isAIMessage (message : BaseMessage) : bool :=
  msg_type message =? "ai".

(** [x?.length] as a truth value. *)
Definition hasLength {A : Type} (l : option (list A)) : bool :=
  match l with
  | Some (_ :: _) => true
  | _ => false
  end.

(** Lines 245-264. *)
Definition getTools (message : BaseMessage) : option (list MistralAIToolCall) :=
  if isAIMessage message && hasLength (msg_tool_calls message) then
    match msg_tool_calls message with
    | Some tool_calls =>
        Some (map convertLangChainToolCallToOpenAI
               (map (fun toolCall =>
                  mkToolCall (call_name toolCall) (call_args toolCall)
                    (Some (_convertToolCallIdToMistralCompatible
                             (match call_id toolCall with
                              | Some id => id
                              | None => ""
                              end)))) tool_calls))
    | None => None
    end
  else if negb (hasLength (msg_kwargs_tool_calls message)) then None
  else
    match msg_kwargs_tool_calls message with
    | Some toolCalls =>
        Some (map (fun toolCall =>
                mkMistralAIToolCall
                  (option_map _convertToolCallIdToMistralCompatible
                     (tc_id toolCall))
                  (tc_function toolCall)) toolCalls)
    | None => None
    end.

(** The callback of [messages.map], lines 266-291, over the [getContent]
    of either revision. *)
Definition convertMessage
  (getContent : MessageContent -> string -> result MistralContent)
  (message : BaseMessage) : result MistralAIMessage :=
  let toolCalls := getTools message in
  content <- getContent (msg_content message) (msg_type message) ;;
  match msg_tool_call_id message with
  | Some tool_call_id =>
      role <- getRole (msg_type message) ;;
      Ok (ToolResultMessage role content (msg_name message)
            (_convertToolCallIdToMistralCompatible tool_call_id))
  | None =>
      if isAIMessage message then
        role <- getRole (msg_type message) ;;
        Ok (AssistantMessage role content toolCalls)
      else
        role <- getRole (msg_type message) ;;
        Ok (PlainMessage role content)
  end.

(** Lines 165-292, first revision. *)
Definition convertMessagesToMistralMessages (messages : list BaseMessage)
  : result (list MistralAIMessage) :=
  mapM (convertMessage Rev1.getContent) messages.

(** Lines 1511-1626, second revision. *)
Definition convertMessagesToMistralMessages_rev2 (messages : list BaseMessage)
  : result (list MistralAIMessage) :=
  mapM (convertMessage Rev2.getContent) messages.

(** *** Non-stream response decoder *)

(** The conditional of lines 330-336 (and 356-362, 414-420). *)
Definition usage_metadata_of (usage : option UsageInfo) : option UsageMetadata :=
  match usage with
  | Some u =>
      Some (mkUsageMetadata (promptTokens u) (completionTokens u) (totalTokens u))
  | None => None
  end.

(** @langchain/core's [parseToolCall], called with [returnId: true]. *)
Variable parseToolCall : MistralAIToolCall -> ParseOutcome.

(** @langchain/core's [makeInvalidToolCall] and the records it builds. *)
Variable InvalidToolCall : Type.
Variable makeInvalidToolCall : MistralAIToolCall -> string -> InvalidToolCall.

(** The message of the [TypeError] raised by reading [parsed.id] when
    [parsed] is [undefined] (the wording is the engine's). *)
Definition undefinedIdMessage : string :=
  "Cannot read properties of undefined (reading 'id')".

(** [s.replace(/-/g, "")]. *)
Fixpoint removeDashes (s : string) : string :=
  match s with
  | EmptyString => EmptyString
  | String c s' =>
      if Ascii.eqb c "-"%char then removeDashes s' else String c (removeDashes s')
  end.

(** [uuidv4().replace(/-/g, "")]. *)
Definition freshId (rng : Rng) : string * Rng :=
  let (u, rng') := uuidv4 rng in (removeDashes u, rng').

(** The messages the decoder builds, with the fields it passes. *)
Inductive DecodedMessage :=
| AIMessage (content : MistralContent) (tool_calls : list ToolCall)
    (invalid_tool_calls : list InvalidToolCall)
    (usage_metadata : option UsageMetadata)
| HumanMessage (content : MistralContent).

(** The state of the loop of lines 311-324: the two arrays being filled
    and the id generator. *)
Record DecodeState := mkDecodeState {
  toolCalls : list ToolCall;
  invalidToolCalls : list InvalidToolCall;
  decode_rng : Rng
}.

(** One iteration: the [try] block and its [catch]. *)
Definition decodeToolCall (st : DecodeState) (rawToolCall : MistralAIToolCall)
  : DecodeState :=
  match parseToolCall rawToolCall with
  | ParseReturns (Some parsed) =>
      match call_id parsed with
      | Some id =>
          mkDecodeState
            (toolCalls st ++ [mkToolCall (call_name parsed) (call_args parsed) (Some id)])
            (invalidToolCalls st) (decode_rng st)
      | None =>
          let (id, rng') := freshId (decode_rng st) in
          mkDecodeState
            (toolCalls st ++ [mkToolCall (call_name parsed) (call_args parsed) (Some id)])
            (invalidToolCalls st) rng'
      end
  | ParseReturns None =>
      mkDecodeState (toolCalls st)
        (invalidToolCalls st ++ [makeInvalidToolCall rawToolCall undefinedIdMessage])
        (decode_rng st)
  | ParseThrows message =>
      mkDecodeState (toolCalls st)
        (invalidToolCalls st ++ [makeInvalidToolCall rawToolCall message])
        (decode_rng st)
  end.

(** [message.content ?? ""], the empty string. *)
Definition contentOrEmpty (content : option MistralContent) : MistralContent :=
  match content with
  | Some c => c
  | None => MistralString ""
  end.

(** Lines 294-342 (and 1628-1676). *)
Definition mistralAIResponseToChatMessage (choice : ResponseChoice)
  (usage : option UsageInfo) (rng : Rng) : result (DecodedMessage * Rng) :=
  match choice_message choice with
  | None => Throw NoMessageFound
  | Some message =>
      let rawToolCalls :=
        match resp_tool_calls message with
        | Some l => l
        | None => []
        end in
      match resp_role message with
      | Some role =>
          if role =? "assistant" then
            let st := fold_left decodeToolCall rawToolCalls (mkDecodeState [] [] rng) in
            Ok (AIMessage (contentOrEmpty (resp_content message))
                  (toolCalls st) (invalidToolCalls st) (usage_metadata_of usage),
                decode_rng st)
          else Ok (HumanMessage (contentOrEmpty (resp_content message)), rng)
      | None => Ok (HumanMessage (contentOrEmpty (resp_content message)), rng)
      end
  end.

(** *** Streaming delta decoder *)

(** JavaScript truthiness of an optional string: neither absent nor empty. *)
Definition truthyString (s : option string) : bool :=
  match s with
  | Some s => negb (s =? "")
  | None => false
  end.

(** Truthiness of an optional array: every array is truthy, the empty one
    included. *)
Definition truthyArray {A : Type} (l : option (list A)) : bool :=
  match l with
  | Some _ => true
  | None => false
  end.

(** The callback of [delta.tool_calls.map] at lines 371-378, run from
    position [index] on. *)
Fixpoint withIndex (tool_calls : list MistralAIToolCall) (index : nat) (rng : Rng)
  : list IndexedToolCall * Rng :=
  match tool_calls with
  | [] => ([], rng)
  | toolCall :: rest =>
      let (id, rng1) :=
        match tc_id toolCall with
        | Some id => (id, rng)
        | None => freshId rng
        end in
      let (rest', rng2) := withIndex rest (S index) rng1 in
      (mkIndexedToolCall (tc_function toolCall) index id :: rest', rng2)
  end.

(** Lines 390-401: the chunk pushed for one raw tool call. *)
Definition toToolCallChunk (rawToolCallChunk : IndexedToolCall) : ToolCallChunk :=
  let rawArgs :=
    match itc_function rawToolCallChunk with
    | Some f => fn_arguments f
    | None => None
    end in
  let args :=
    match rawArgs with
    | None => None
    | Some (ArgsString s) => Some s
    | Some (ArgsObject j) => Some (JSON_stringify j)
    end in
  mkToolCallChunk (option_map fn_name (itc_function rawToolCallChunk)) args
    (itc_id rawToolCallChunk) (itc_index rawToolCallChunk).

(** [rawToolCallChunksWithIndex?.[0].id ?? ""] of line 426: reading [.id]
    of a missing first element is a [TypeError]. *)
Definition firstFragmentId (rawToolCallChunksWithIndex : option (list IndexedToolCall))
  : result string :=
  match rawToolCallChunksWithIndex with
  | None => Ok ""
  | Some [] => Throw (TypeError "Cannot read properties of undefined (reading 'id')")
  | Some (first :: _) => Ok (itc_id first)
  end.

(** Lines 344-436 (and 1678-1770): [Ok None] is the [null] result. *)
Definition _convertDeltaToMessageChunk (delta : Delta) (usage : option UsageInfo)
  (rng : Rng) : result (option MessageChunk * Rng) :=
  if negb (truthyString (delta_content delta))
     && negb (truthyArray (delta_tool_calls delta)) then
    match usage with
    | Some _ => Ok (Some (AIMessageChunk "" None None (usage_metadata_of usage)), rng)
    | None => Ok (None, rng)
    end
  else
    let (rawToolCallChunksWithIndex, rng') :=
      if hasLength (delta_tool_calls delta) then
        match delta_tool_calls delta with
        | Some tool_calls =>
            let (l, rng') := withIndex tool_calls 0 rng in (Some l, rng')
        | None => (None, rng)
        end
      else (None, rng) in
    let role :=
      if truthyString (delta_role delta) then
        match delta_role delta with
        | Some r => r
        | None => "assistant"
        end
      else "assistant" in
    let content :=
      match delta_content delta with
      | Some c => c
      | None => ""
      end in
    let additional_kwargs :=
      match rawToolCallChunksWithIndex with
      | Some _ => None
      | None => Some tt
      end in
    let toolCallChunks :=
      match rawToolCallChunksWithIndex with
      | Some l => map toToolCallChunk l
      | None => []
      end in
    if role =? "user" then Ok (Some (HumanMessageChunk content), rng')
    else if role =? "assistant" then
      Ok (Some (AIMessageChunk content (Some toolCallChunks) additional_kwargs
                  (usage_metadata_of usage)), rng')
    else if role =? "tool" then
      tool_call_id <- firstFragmentId rawToolCallChunksWithIndex ;;
      Ok (Some (ToolMessageChunk content additional_kwargs tool_call_id), rng')
    else if role =? "function" then
      Ok (Some (FunctionMessageChunk content additional_kwargs), rng')
    else Ok (Some (ChatMessageChunk content role), rng').

(** *** The transport call *)

(** [s.includes(sub)]. *)
Fixpoint includes (s sub : string) : bool :=
  match s with
  | EmptyString => sub =? ""
  | String _ s' => String.prefix sub s || includes s' sub
  end.

(** An ASCII capital letter becomes its small letter. *)
Definition toLowerChar (c : ascii) : ascii :=
  let n := nat_of_ascii c in
  if (65 <=? n)%nat && (n <=? 90)%nat then ascii_of_nat (n + 32) else c.

(** [s.toLowerCase()] on the ASCII letters, the only ones the pattern
    searched for can match. *)
Fixpoint toLowerCase (s : string) : string :=
  match s with
  | EmptyString => EmptyString
  | String c s' => String (toLowerChar c) (toLowerCase s')
  end.

(** The condition of lines 951-955; an absent message makes each
    [e.message?.includes(...)] undefined, hence falsy. *)
Definition isStatus400 (e : JsError) : bool :=
  match err_message e with
  | Some message =>
      includes message "status: 400"
      || includes (toLowerCase message) "status 400"
      || includes message "validation failed"
  | None => false
  end.

(** Lines 937-960: the function handed to [this.caller.call], applied to
    the outcome of the SDK call it awaits.  The caller itself (the
    framework's retrying [AsyncCaller]) is outside this module. *)
Definition completionWithRetry {R : Type} (call : Completion R) : Completion R :=
  match call with
  | Returned res => Returned res
  | Thrown e =>
      if isStatus400 e then Thrown (mkJsError (err_message e) (Some 400))
      else Thrown e
  end.

(** *** The stream of generation chunks *)

(** The field initialiser of line 826 and the assignment of line 847. *)
Definition constructor (fields : option ChatMistralAIInput) : ChatMistralAI :=
  let default := true in
  mkChatMistralAI
    match fields with
    | Some f =>
        match fields_streamUsage f with
        | Some b => b
        | None => default
        end
    | None => default
    end.

(** [this.streamUsage || options.streamUsage], line 1074: the left operand
    when it is true, else the right one, which may be undefined. *)
Definition shouldStreamUsage (this : ChatMistralAI) (options : CallOptions)
  : option bool :=
  if streamUsage this then Some true else options_streamUsage options.

(** Truthiness of an optional boolean. *)
Definition truthy (b : option bool) : bool :=
  match b with
  | Some true => true
  | _ => false
  end.

(** [shouldStreamUsage ? data.usage : null], line 1077. *)
Definition usageArgument (this : ChatMistralAI) (options : CallOptions)
  (data_usage : option UsageInfo) : option UsageInfo :=
  if truthy (shouldStreamUsage this options) then data_usage else None.

(** The body of the loop of lines 1057-1098 for one event: [aborted] is
    what [options.signal?.aborted] reads when the event arrives, [data] the
    event's payload.  [Ok (None, _)] is a [continue], [Ok (Some c, _)] a
    [yield] of [c]. *)
Definition streamEvent (this : ChatMistralAI) (options : CallOptions)
  (aborted : bool) (data : option CompletionChunk) (rng : Rng)
  : result (option ChatGenerationChunk * Rng) :=
  if aborted then Throw AbortError
  else
    match data with
    | None => Ok (None, rng)
    | Some data =>
        match choices data with
        | [] => Ok (None, rng)
        | choice :: _ =>
            match choice_delta choice with
            | DeltaMissing => Ok (None, rng)
            | DeltaNullish => Ok (None, rng)
            | DeltaPresent delta =>
                let newTokenIndices :=
                  mkNewTokenIndices 0
                    (Some match choice_index choice with
                          | Some i => i
                          | None => 0
                          end) in
                r <- _convertDeltaToMessageChunk delta
                       (usageArgument this options (usage data)) rng ;;
                match r with
                | (None, rng') => Ok (None, rng')
                | (Some message, rng') =>
                    Ok (Some (mkChatGenerationChunk message
                                match delta_content delta with
                                | Some c => c
                                | None => ""
                                end
                                (Some newTokenIndices)), rng')
                end
            end
        end
    end.

(** The generator of lines 1044-1099 run over the events the transport
    delivers: the chunks it yields, and the error it ends with if it
    throws. *)
Fixpoint _streamResponseChunks (this : ChatMistralAI) (options : CallOptions)
  (events : list (bool * option CompletionChunk)) (rng : Rng)
  : list ChatGenerationChunk * option Error :=
  match events with
  | [] => ([], None)
  | (aborted, data) :: rest =>
      match streamEvent this options aborted data rng with
      | Throw e => ([], Some e)
      | Ok (None, rng') => _streamResponseChunks this options rest rng'
      | Ok (Some chunk, rng') =>
          let (chunks, ending) := _streamResponseChunks this options rest rng' in
          (chunk :: chunks, ending)
      end
  end.

(** *** Aggregation of the streamed chunks *)

(** [ChatGenerationChunk.concat] of @langchain/core: it builds a new chunk
    from the receiver and the argument. *)
Variable concat : ChatGenerationChunk -> ChatGenerationChunk -> ChatGenerationChunk.

(** **** Numbers that are integers

    An index is a JavaScript Number.  The integers below 2^53 in magnitude
    are Numbers; a larger Number is a significand of 53 bits times a power
    of two, and from 2^1024 on there is only [Infinity]. *)

(** The Number nearest to a positive integer, a tie going to the even
    significand.  Rounding may reach 2^1024, which stands for [Infinity]. *)
Definition roundPositive (v : Z) : Z :=
  if (v <? 2 ^ 53)%Z then v
  else
    let e := (Z.log2 v - 52)%Z in
    let q := (v / 2 ^ e)%Z in
    let r := (v mod 2 ^ e)%Z in
    let half := (2 ^ (e - 1))%Z in
    if (r <? half)%Z then (q * 2 ^ e)%Z
    else if (half <? r)%Z then ((q + 1) * 2 ^ e)%Z
    else if Z.even q then (q * 2 ^ e)%Z
    else ((q + 1) * 2 ^ e)%Z.

(** The Number that an integer denotes. *)
Definition roundToNumber (z : Z) : Z :=
  match z with
  | Z0 => 0
  | Zpos _ => roundPositive z
  | Zneg p => (- roundPositive (Zpos p))%Z
  end.

(** The decimal numeral of an integer and the number of its characters. *)
Definition numeral (v : Z) : string := NilZero.string_of_int (Z.to_int v).

Definition digits (v : Z) : Z := Z.of_nat (String.length (numeral v)).

(** The value with [k] significant digits that [Number::toString] may
    print for the Number [x]: a multiple of 10^(digits x - k) next to [x]
    that denotes [x]; of two, the one closer to [x], and on a tie the one
    with the even digits. *)
Definition candidate (x k : Z) : option Z :=
  if (digits x <=? k)%Z then Some x
  else
    let p := (10 ^ (digits x - k))%Z in
    let s := (x / p)%Z in
    let below := (s * p)%Z in
    let above := ((s + 1) * p)%Z in
    match (roundToNumber below =? x)%Z, (roundToNumber above =? x)%Z with
    | true, true =>
        if (x - below <? above - x)%Z then Some below
        else if (above - x <? x - below)%Z then Some above
        else if Z.even s then Some below
        else Some above
    | true, false => Some below
    | false, true => Some above
    | false, false => None
    end.

(** The value with the fewest significant digits, tried from [k] digits
    on; seventeen digits always tell a Number from its neighbours. *)
Fixpoint shortest (x k : Z) (fuel : nat) : Z :=
  match fuel with
  | O => x
  | S fuel' =>
      match candidate x k with
      | Some v => v
      | None => shortest x (k + 1) fuel'
      end
  end.

(** A numeral without its trailing zeros. *)
Fixpoint stripZeros (s : string) : string :=
  match s with
  | EmptyString => EmptyString
  | String c s' =>
      match stripZeros s' with
      | EmptyString => if Ascii.eqb c "0" then EmptyString else String c EmptyString
      | t => String c t
      end
  end.

(** The exponent notation of a value of more than 21 digits: "1e+21",
    "1.1805916207174113e+21". *)
Definition exponential (v : Z) : string :=
  match stripZeros (numeral v) with
  | EmptyString => EmptyString
  | String d EmptyString => String d ("e+" ++ numeral (digits v - 1))%string
  | String d rest =>
      String d ("." ++ rest ++ "e+" ++ numeral (digits v - 1))%string
  end.

(** [Number::toString] for a positive Number that is an integer: its
    numeral below 2^53; else the shortest digits that denote it, followed
    by zeros up to 21 digits in all and in exponent notation beyond. *)
Definition printPositive (x : Z) : string :=
  if (x <? 2 ^ 53)%Z then numeral x
  else if (2 ^ 1024 <=? x)%Z then "Infinity"
  else
    let v := shortest x 1 17 in
    if (digits v <=? 21)%Z then numeral v else exponential v.

(** The property key that an index becomes: [Number::toString] of the
    Number that the integer denotes. *)
Definition Number_toString (n : Z) : string :=
  match n with
  | Z0 => "0"
  | Zpos _ => printPositive (roundPositive n)
  | Zneg p => ("-" ++ printPositive (roundPositive (Zpos p)))%string
  end.

(** The white space of ASCII: tab, line feed, vertical tab, form feed,
    carriage return and space. *)
Definition isWhiteSpace (c : ascii) : bool :=
  let n := nat_of_ascii c in
  ((9 <=? n)%nat && (n <=? 13)%nat) || (n =? 32)%nat.

Fixpoint trimStart (s : string) : string :=
  match s with
  | EmptyString => EmptyString
  | String c s' => if isWhiteSpace c then trimStart s' else s
  end.

Definition isDigit (c : ascii) : bool :=
  let n := nat_of_ascii c in
  (48 <=? n)%nat && (n <=? 57)%nat.

(** The longest prefix of decimal digits. *)
Fixpoint digitPrefix (s : string) : string :=
  match s with
  | EmptyString => EmptyString
  | String c s' => if isDigit c then String c (digitPrefix s') else EmptyString
  end.

(** [parseInt(s, 10)]: leading white space is skipped, a sign is read, and
    the digits up to the first other character are the value, as a Number;
    [None] stands for [NaN], the result when there is no digit.  A key has
    at most 21 digits, so that no value read here reaches [Infinity]. *)
Definition parseInt (s : string) : option Z :=
  let s := trimStart s in
  let (sign, s) :=
    match s with
    | String "-" s' => ((-1)%Z, s')
    | String "+" s' => (1%Z, s')
    | _ => (1%Z, s)
    end in
  match NilZero.uint_of_string (digitPrefix s) with
  | Some d => Some (roundToNumber (sign * Z.of_uint d))
  | None => None
  end.

(** [o[key]] for an own property; [None] is [undefined]. *)
Fixpoint obj_get {V : Type} (o : JsObject V) (key : string) : option V :=
  match o with
  | [] => None
  | (k, v) :: o' => if k =? key then Some v else obj_get o' key
  end.

(** [o[key] = v]: an existing property keeps its place, a new one is
    created last. *)
Fixpoint obj_set {V : Type} (o : JsObject V) (key : string) (v : V) : JsObject V :=
  match o with
  | [] => [(key, v)]
  | (k, w) :: o' => if k =? key then (k, v) :: o' else (k, w) :: obj_set o' key v
  end.

(** A key is an array index when it is the canonical numeral of an integer
    from 0 to 2^32 - 2. *)
Definition isArrayIndex (key : string) : bool :=
  match parseInt key with
  | Some n => (0 <=? n)%Z && (n <? 4294967295)%Z && (Number_toString n =? key)
  | None => false
  end.

(** [Array.prototype.sort] with a comparator: a stable sort, here by
    insertion from the right.  A comparator result of [NaN] ([None]) counts
    as zero. *)
Fixpoint insert {A : Type} (cmp : A -> A -> option Z) (x : A) (l : list A) : list A :=
  match l with
  | [] => [x]
  | y :: l' =>
      if (match cmp x y with Some d => d | None => 0 end <=? 0)%Z
      then x :: y :: l'
      else y :: insert cmp x l'
  end.

Definition sort {A : Type} (cmp : A -> A -> option Z) (l : list A) : list A :=
  fold_right (insert cmp) [] l.

(** The comparator of line 995: [parseInt(aKey, 10) - parseInt(bKey, 10)]. *)
Definition byKey {V : Type} (a b : string * V) : option Z :=
  match parseInt (fst a), parseInt (fst b) with
  | Some x, Some y => Some (roundToNumber (x - y))
  | _, _ => None
  end.

(** [Object.entries]: the array-index keys in ascending numeric order, then
    the other keys in creation order. *)
Definition Object_entries {V : Type} (o : JsObject V) : list (string * V) :=
  sort byKey (filter (fun kv => isArrayIndex (fst kv)) o)
  ++ filter (fun kv => negb (isArrayIndex (fst kv))) o.

(** Lines 986-987: [chunk.generationInfo?.completion ?? 0]. *)
Definition completionIndex (chunk : ChatGenerationChunk) : Z :=
  match generationInfo chunk with
  | Some info =>
      match completion info with
      | Some i => i
      | None => 0
      end
  | None => 0
  end.

(** Lines 986-992: the body of the [for await] loop. *)
Definition accumulate (finalChunks : JsObject ChatGenerationChunk)
  (chunk : ChatGenerationChunk) : JsObject ChatGenerationChunk :=
  let index := completionIndex chunk in
  match obj_get finalChunks (Number_toString index) with
  | None => obj_set finalChunks (Number_toString index) chunk
  | Some accumulated =>
      obj_set finalChunks (Number_toString index) (concat accumulated chunk)
  end.

(** Lines 984-996: the [generations] built from the chunks the stream
    yielded. *)
Definition generations (stream : list ChatGenerationChunk)
  : list ChatGenerationChunk :=
  let finalChunks := fold_left accumulate stream [] in
  map snd (sort byKey (Object_entries finalChunks)).

(** The statements of the generator before its loop, lines 1049-1056: the
    messages are converted and the transport is called.  [call] is how
    [client.chat.stream] ends: it throws, or it returns the stream, given
    here by the events that the stream delivers. *)
Definition openStream (messages : list BaseMessage)
  (call : Completion (list (bool * option CompletionChunk)))
  : result (list (bool * option CompletionChunk)) :=
  mistralMessages <- convertMessagesToMistralMessages messages ;;
  match completionWithRetry call with
  | Thrown e => Throw (TransportFailure e)
  | Returned streamIterable => Ok streamIterable
  end.

(** The streaming branch of [_generate], lines 969-999: the messages are
    converted (line 971), the generator is run to its end, and an error of
    its preamble or of its loop ends the call; else the aggregated
    generations are returned. *)
Definition _generate (this : ChatMistralAI) (messages : list BaseMessage)
  (options : CallOptions)
  (call : Completion (list (bool * option CompletionChunk))) (rng : Rng)
  : result (list ChatGenerationChunk) :=
  mistralMessages <- convertMessagesToMistralMessages messages ;;
  events <- openStream messages call ;;
  match _streamResponseChunks this options events rng with
  | (_, Some e) => Throw e
  | (stream, None) => Ok (generations stream)
  end.

(** *** The non-streaming call *)

(** The [TokenUsage] record of lines 72-76: each count may be missing. *)
Record TokenUsage := mkTokenUsage {
  tokenUsage_completionTokens : option Z;
  tokenUsage_promptTokens : option Z;
  tokenUsage_totalTokens : option Z
}.

(** A choice of a complete response as the loop of lines 1021-1037 reads
    it: whether it has a [delta] property, its [message] property ([None]
    when there is none, [Some None] when it is there and undefined) and its
    [finishReason]. *)
Record CompletionChoice := mkCompletionChoice {
  part_delta : bool;
  part_message : option (option ResponseMessage);
  part_finishReason : option string
}.

(** The response of [client.chat.complete]: [usage] and [choices] may be
    missing. *)
Record ChatCompletionResponse := mkChatCompletionResponse {
  response_usage : option UsageInfo;
  response_choices : option (list CompletionChoice)
}.

(** A [ChatGeneration] (lines 1029-1035); [generation_finishReason] is the
    [finishReason] of its [generationInfo], [None] when the generation has
    no [generationInfo]. *)
Record ChatGeneration := mkChatGeneration {
  generation_text : MistralContent;
  generation_message : DecodedMessage;
  generation_finishReason : option string
}.

(** The [ChatResult] of lines 1038-1041. *)
Record ChatResult := mkChatResult {
  result_generations : list ChatGeneration;
  result_tokenUsage : TokenUsage
}.

(** What the non-streaming branch throws: its own two errors, an error of
    the decoder, or the error of the transport call. *)
Inductive GenerateError :=
| DeltaNotSupported
| NoMessageInChoice
| Raised (e : Error).

(** Lines 1007-1018, one count: [if (tokens) counted = (counted ?? 0) +
    tokens], where 0 is falsy. *)
Definition addTokens (counted : option Z) (tokens : option Z) : option Z :=
  match tokens with
  | Some n =>
      if (n =? 0)%Z then counted
      else Some (match counted with Some c => c | None => 0 end + n)
  | None => counted
  end.

(** The body of the loop of lines 1021-1037 for one choice. *)
Definition generation (usage : option UsageInfo) (part : CompletionChoice)
  (rng : Rng) : GenerateError + ChatGeneration * Rng :=
  if part_delta part then inl DeltaNotSupported
  else
    match part_message part with
    | None => inl NoMessageInChoice
    | Some message =>
        let text :=
          match message with
          | Some m => contentOrEmpty (resp_content m)
          | None => MistralString ""
          end in
        match mistralAIResponseToChatMessage (mkResponseChoice message) usage rng with
        | Throw e => inl (Raised e)
        | Ok (decoded, rng') =>
            inr (mkChatGeneration text decoded
                   (if truthyString (part_finishReason part)
                    then part_finishReason part else None),
                 rng')
        end
    end.

(** The loop itself: the generations pushed, in order. *)
Fixpoint generationsOf (usage : option UsageInfo) (parts : list CompletionChoice)
  (rng : Rng) : GenerateError + list ChatGeneration * Rng :=
  match parts with
  | [] => inr ([], rng)
  | part :: rest =>
      match generation usage part rng with
      | inl e => inl e
      | inr (g, rng') =>
          match generationsOf usage rest rng' with
          | inl e => inl e
          | inr (gs, rng'') => inr (g :: gs, rng'')
          end
      end
  end.

(** The non-streaming branch of [_generate], lines 1001-1042; [call] is
    how [client.chat.complete] ends, the response being possibly nullish. *)
Definition _generate_complete (call : Completion (option ChatCompletionResponse))
  (rng : Rng) : GenerateError + ChatResult * Rng :=
  match completionWithRetry call with
  | Thrown e => inl (Raised (TransportFailure e))
  | Returned response =>
      let usage :=
        match response with
        | Some r => response_usage r
        | None => None
        end in
      let tokenUsage :=
        mkTokenUsage
          (addTokens None (option_map completionTokens usage))
          (addTokens None (option_map promptTokens usage))
          (addTokens None (option_map totalTokens usage)) in
      let parts :=
        match response with
        | Some r =>
            match response_choices r with
            | Some l => l
            | None => []
            end
        | None => []
        end in
      match generationsOf usage parts rng with
      | inl e => inl e
      | inr (generations, rng') => inr (mkChatResult generations tokenUsage, rng')
      end
  end.

(** *** The request parameters and the bound tools *)

(** A JavaScript number that the module only passes on. *)
Variable Num : Type.

(** A zod schema and the conversion of the zod-to-json-schema package. *)
Variable ZodType : Type.
Variable zodToJsonSchema : ZodType -> Json.

(** The provider's [Tool] and its [function]. *)
Record MistralAIFunction := mkMistralAIFunction {
  function_name : string;
  function_description : option string;
  function_parameters : Json
}.

Record MistralAITool := mkMistralAITool {
  tool_type : option string;
  tool_function : MistralAIFunction
}.

(** A [ChatMistralAIToolType] as line 442 tells them apart: an object with
    a [function] property, read as a provider tool, or a structured tool
    with its [name], [description] and [schema]. *)
Inductive ChatMistralAIToolType :=
| ProviderTool (tool : MistralAITool)
| StructuredTool (name : string) (description : option string) (schema : ZodType).

(** Lines 438-456. *)
Definition _convertToolToMistralTool (tools : list ChatMistralAIToolType)
  : list MistralAITool :=
  map (fun tool =>
         match tool with
         | ProviderTool t => t
         | StructuredTool name description schema =>
             let description :=
               match description with
               | Some d => d
               | None => ("Tool: " ++ name)%string
               end in
             mkMistralAITool (Some "function")
               (mkMistralAIFunction name (Some description) (zodToJsonSchema schema))
         end)
      tools.

(** The fields of the instance that [invocationParams] reads. *)
Record ModelFields := mkModelFields {
  model : string;
  temperature : Num;
  maxTokens : option Num;
  topP : Num;
  seed : option Num;
  safePrompt : bool
}.

(** The call options that [invocationParams] reads; a tool choice is kept
    as the JSON value it is. *)
Record ParsedCallOptions := mkParsedCallOptions {
  options_response_format : option string;
  options_tools : option (list ChatMistralAIToolType);
  options_tool_choice : option Json
}.

(** The request without its messages. *)
Record InvocationParams := mkInvocationParams {
  params_model : string;
  params_tools : option (list MistralAITool);
  params_temperature : Num;
  params_maxTokens : option Num;
  params_topP : Num;
  params_randomSeed : option Num;
  params_safePrompt : bool;
  params_toolChoice : option Json;
  params_responseFormat : option string
}.

(** Lines 880-899. *)
Definition invocationParams (this : ModelFields) (options : option ParsedCallOptions)
  : InvocationParams :=
  let response_format :=
    match options with Some o => options_response_format o | None => None end in
  let tools :=
    match options with Some o => options_tools o | None => None end in
  let tool_choice :=
    match options with Some o => options_tool_choice o | None => None end in
  let mistralAITools :=
    match tools with
    | Some (tool :: rest) => Some (_convertToolToMistralTool (tool :: rest))
    | _ => None
    end in
  mkInvocationParams (model this) mistralAITools (temperature this)
    (maxTokens this) (topP this) (seed this) (safePrompt this)
    tool_choice response_format.

(** The [kwargs] of [bindTools], a partial options object: [kwargs_tools]
    is [None] when the object has no [tools] property of its own, and
    [Some v] when it has one with value [v], which may be undefined. *)
Record PartialCallOptions := mkPartialCallOptions {
  kwargs_response_format : option string;
  kwargs_tools : option (option (list ChatMistralAIToolType));
  kwargs_tool_choice : option Json
}.

(** Lines 901-909: the options object that [bindTools] hands to
    [this.bind], the properties of [kwargs] spread over the converted
    tools. *)
Definition bindTools (tools : list ChatMistralAIToolType)
  (kwargs : option PartialCallOptions) : ParsedCallOptions :=
  let converted := map ProviderTool (_convertToolToMistralTool tools) in
  match kwargs with
  | None => mkParsedCallOptions None (Some converted) None
  | Some k =>
      mkParsedCallOptions (kwargs_response_format k)
        match kwargs_tools k with
        | Some own => own
        | None => Some converted
        end
        (kwargs_tool_choice k)
  end.

(** *** What the properties are stated with *)


(** The three situations in which array content is to be refused: an
    image part outside the user role, a text part outside the user and
    system roles, or the assistant or tool role. *)
Definition refused (mistralRole : string) (parts : list MessageContentComplex) : Prop :=
  (existsb isImagePart parts = true /\ mistralRole <> "user")
  \/ (existsb isTextPart parts = true
      /\ mistralRole <> "user" /\ mistralRole <> "system")
  \/ mistralRole = "assistant" \/ mistralRole = "tool".

(** The chunk a part becomes under the user role. *)
Definition userChunk (p : MessageContentComplex) : ContentChunk :=
  if isImagePart p then ImageURLChunk (part_image_url p)
  else TextChunk (part_text p).

(** The provider message that message [m] becomes once its role and
    content are translated: the tool-result shape when it has a string
    [tool_call_id], the assistant shape when it is an AI message, the plain
    shape otherwise. *)
Definition providerMessage (m : BaseMessage) (role : string)
  (content : MistralContent) : MistralAIMessage :=
  match msg_tool_call_id m with
  | Some tool_call_id =>
      ToolResultMessage role content (msg_name m)
        (_convertToolCallIdToMistralCompatible tool_call_id)
  | None =>
      if isAIMessage m then AssistantMessage role content (getTools m)
      else PlainMessage role content
  end.

(** The message with which a raw tool call is rejected, if it is. *)
Definition rejection (rawToolCall : MistralAIToolCall) : option string :=
  match parseToolCall rawToolCall with
  | ParseThrows message => Some message
  | ParseReturns None => Some undefinedIdMessage
  | ParseReturns (Some _) => None
  end.

(** The invalid records of a list of raw calls, in order. *)
Definition rejected (rawToolCalls : list MistralAIToolCall) : list InvalidToolCall :=
  flat_map (fun raw =>
    match rejection raw with
    | Some message => [makeInvalidToolCall raw message]
    | None => []
    end) rawToolCalls.

(** The well-formed calls of a list of raw calls, as parsed, in order. *)
Definition wellFormed (rawToolCalls : list MistralAIToolCall) : list ToolCall :=
  flat_map (fun raw =>
    match parseToolCall raw with
    | ParseReturns (Some parsed) => [parsed]
    | _ => []
    end) rawToolCalls.

(** The tool-call fragments of a delta: its raw tool calls with position
    and id filled in, none when the delta has no tool calls. *)
Definition fragments (delta : Delta) (rng : Rng) : list IndexedToolCall :=
  match delta_tool_calls delta with
  | Some tool_calls => fst (withIndex tool_calls 0 rng)
  | None => []
  end.





(** The generator after [n] ids have been drawn from it. *)
Fixpoint draws (n : nat) (rng : Rng) : Rng :=
  match n with
  | O => rng
  | S n' => draws n' (snd (uuidv4 rng))
  end.

(** A raw tool call parses to a call that has no id. *)
Definition parsesWithoutId (rawToolCall : MistralAIToolCall) : bool :=
  match parseToolCall rawToolCall with
  | ParseReturns (Some parsed) =>
      match call_id parsed with
      | Some _ => false
      | None => true
      end
  | _ => false
  end.

(** A string without its dashes: its other characters, in order. *)
Definition withoutDashes (s : string) : string :=
  string_of_list_ascii
    (filter (fun c => negb (Ascii.eqb c "-")) (list_ascii_of_string s)).

(** The call returned for a raw call that parsed to [parsed], when [k] ids
    have been synthesized for the calls before it: the parsed name and
    arguments, and as id the parsed one or, when there is none, the next
    uuid of the generator, the one drawn after [k] draws from [rng],
    without its dashes. *)
Definition returnedCall (parsed : ToolCall) (k : nat) (rng : Rng) : ToolCall :=
  mkToolCall (call_name parsed) (call_args parsed)
    (Some match call_id parsed with
          | Some id => id
          | None => withoutDashes (fst (uuidv4 (draws k rng)))
          end).

(** A provider tool call comes without an id. *)
Definition missingId (toolCall : MistralAIToolCall) : bool :=
  match tc_id toolCall with
  | Some _ => false
  | None => true
  end.

(** The first test of the delta decoder: neither content nor a tool-call
    list. *)
Definition isEmptyDelta (delta : Delta) : bool :=
  negb (truthyString (delta_content delta))
  && negb (truthyArray (delta_tool_calls delta)).

(** The role the delta decoder dispatches on: the delta's own when it has
    a non-empty one, assistant otherwise. *)
Definition deltaRole (delta : Delta) : string :=
  if truthyString (delta_role delta) then
    match delta_role delta with
    | Some r => r
    | None => "assistant"
    end
  else "assistant".

(** The usage metadata a chunk carries; only assistant chunks have any. *)
Definition chunkUsage (chunk : MessageChunk) : option UsageMetadata :=
  match chunk with
  | AIMessageChunk _ _ _ usage_metadata => usage_metadata
  | _ => None
  end.

(** The [args] of the chunk built from a raw tool call: a string as it is,
    an object serialized, nothing when there is none. *)
Definition chunkArgs (toolCall : MistralAIToolCall) : option string :=
  match tc_function toolCall with
  | Some f =>
      match fn_arguments f with
      | Some (ArgsString s) => Some s
      | Some (ArgsObject j) => Some (JSON_stringify j)
      | None => None
      end
  | None => None
  end.

(** A choice that the non-streaming branch accepts: no [delta] property
    and a [message] property that is not undefined. *)
Definition acceptable (part : CompletionChoice) : bool :=
  negb (part_delta part)
  && match part_message part with
     | Some (Some _) => true
     | _ => false
     end.

(** The generation that belongs to a choice of a response with the given
    [usage]: text and content are the message's content or the empty
    string, the finish reason is kept when it is not empty, and the message
    is an AI message carrying the usage exactly for the role assistant. *)
Definition generationFor (usage : option UsageInfo) (part : CompletionChoice)
  (g : ChatGeneration) : Prop :=
  exists message,
    part_message part = Some (Some message)
    /\ generation_text g = contentOrEmpty (resp_content message)
    /\ generation_finishReason g
       = (if truthyString (part_finishReason part) then part_finishReason part
          else None)
    /\ match generation_message g with
       | AIMessage content _ _ usage_metadata =>
           resp_role message = Some "assistant"
           /\ content = contentOrEmpty (resp_content message)
           /\ usage_metadata = usage_metadata_of usage
       | HumanMessage content =>
           resp_role message <> Some "assistant"
           /\ content = contentOrEmpty (resp_content message)
       end.

(** A token count as [llmOutput.tokenUsage] holds it: missing when the
    response has no usage or reports zero. *)
Definition reported (count : UsageInfo -> Z) (usage : option UsageInfo) : option Z :=
  match usage with
  | Some u => if (count u =? 0)%Z then None else Some (count u)
  | None => None
  end.

(** The [tools] property that [kwargs] itself has, if any. *)
Definition ownTools (kwargs : option PartialCallOptions)
  : option (option (list ChatMistralAIToolType)) :=
  match kwargs with
  | Some k => kwargs_tools k
  | None => None
  end.

(** The [tools] of a request for a given tool list: absent for a missing
    or empty list. *)
Definition requestTools (tools : option (list ChatMistralAIToolType))
  : option (list MistralAITool) :=
  match tools with
  | Some (tool :: rest) => Some (_convertToolToMistralTool (tool :: rest))
  | _ => None
  end.

(** The error that a choice which is not acceptable ends the call with. *)
Definition refusal (part : CompletionChoice) : GenerateError :=
  if part_delta part then DeltaNotSupported
  else
    match part_message part with
    | None => NoMessageInChoice
    | Some _ => Raised NoMessageFound
    end.

(** [response?.usage] and [response?.choices ?? []]. *)
Definition usageOf (response : option ChatCompletionResponse) : option UsageInfo :=
  match response with
  | Some r => response_usage r
  | None => None
  end.

Definition choicesOf (response : option ChatCompletionResponse)
  : list CompletionChoice :=
  match response with
  | Some r =>
      match response_choices r with
      | Some l => l
      | None => []
      end
  | None => []
  end.

(** The name a tool is sent under. *)
Definition toolName (tool : ChatMistralAIToolType) : string :=
  match tool with
  | ProviderTool t => function_name (tool_function t)
  | StructuredTool name _ _ => name
  end.

(** A chunk of the stream comes from an event: the event arrived before
    the abort signal, its first choice holds a delta, and the chunk carries
    that choice's index (0 when it has none) and the delta's content as its
    text. *)
Definition yieldedFrom (events : list (bool * option CompletionChunk))
  (chunk : ChatGenerationChunk) : Prop :=
  exists data choice rest delta,
    In (false, Some data) events
    /\ choices data = choice :: rest
    /\ choice_delta choice = DeltaPresent delta
    /\ generationInfo chunk
       = Some (mkNewTokenIndices 0
                 (Some match choice_index choice with
                       | Some i => i
                       | None => 0
                       end))
    /\ gen_text chunk = match delta_content delta with Some c => c | None => "" end.

(** ** Properties *)

(** *** The error monad *)

Lemma mapM_Ok_Forall2 {A B : Type} (f : A -> result B) (l : list A) (ys : list B) :
  mapM f l = Ok ys <-> Forall2 (fun x y => f x = Ok y) l ys.
Proof.
  revert ys; induction l as [|x l IH]; intros ys; simpl.
  - split.
    + intros [= <-]; constructor.
    + intros H; inversion H; reflexivity.
  - split.
    + destruct (f x) as [y|e] eqn:Hx; simpl; [|discriminate].
      destruct (mapM f l) as [zs|e] eqn:Hl; simpl; [|discriminate].
      intros [= <-]; constructor; [assumption|]. now apply IH.
    + intros H; inversion H as [|x' y l' zs Hx Hl]; subst.
      rewrite Hx; simpl. apply IH in Hl. rewrite Hl; reflexivity.
Qed.

Lemma mapM_map {A B : Type} (f : A -> result B) (g : A -> B) (l : list A) :
  (forall x, In x l -> f x = Ok (g x)) -> mapM f l = Ok (map g l).
Proof.
  induction l as [|x l IH]; intros H; simpl; [reflexivity|].
  rewrite (H x (or_introl eq_refl)); simpl.
  rewrite IH; [reflexivity|]. intros y Hy; apply H; now right.
Qed.

(** A map throws as soon as one element does, and what it throws is one of
    the errors its callback throws on the list. *)
Lemma mapM_Throw {A B : Type} (f : A -> result B) (l : list A) (P : Error -> Prop) :
  (forall x e, In x l -> f x = Throw e -> P e) ->
  (exists x e, In x l /\ f x = Throw e) ->
  exists e, mapM f l = Throw e /\ P e.
Proof.
  induction l as [|x l IH]; intros HP (x0 & e0 & Hin & Hx0); [destruct Hin|].
  simpl. destruct (f x) as [y|e] eqn:Hx; simpl.
  - destruct Hin as [<-|Hin]; [congruence|].
    destruct IH as (e & He & HPe).
    + intros z e Hz; apply HP; now right.
    + now exists x0, e0.
    + exists e; rewrite He; auto.
  - exists e; split; [reflexivity|]. apply (HP x); [now left|assumption].
Qed.

(** *** Role mapper *)

Ltac in_list := simpl; repeat (first [left; reflexivity | right]).

Lemma getRole_Ok_inv (role provider : string) :
  getRole role = Ok provider ->
  In provider ["system"; "user"; "assistant"; "tool"].
Proof.
  unfold getRole.
  repeat match goal with
         | |- context [if ?b then _ else _] => destruct b
         end; intros [= <-]; simpl; auto.
Qed.

(** C5.  The role mapper sends human to user, ai to assistant, system to
    system, tool to tool and function to assistant; on every other tag it
    throws the unknown-message-type error carrying that tag; and whatever it
    returns is one of system, user, assistant, tool. *)
Theorem getRole_closed_role_set :
  getRole "human" = Ok "user"
  /\ getRole "ai" = Ok "assistant"
  /\ getRole "system" = Ok "system"
  /\ getRole "tool" = Ok "tool"
  /\ getRole "function" = Ok "assistant"
  /\ (forall role,
        ~ In role ["system"; "human"; "ai"; "tool"; "function"] ->
        getRole role = Throw (UnknownMessageType role))
  /\ (forall role provider,
        getRole role = Ok provider ->
        In role ["system"; "human"; "ai"; "tool"; "function"]
        /\ In provider ["system"; "user"; "assistant"; "tool"]).
Proof.
  repeat (split; [reflexivity|]).
  split.
  - intros role Hout. unfold getRole.
    repeat match goal with
           | |- context [String.eqb role ?t] =>
               destruct (String.eqb_spec role t) as [->|_];
               [exfalso; apply Hout; in_list|]
           end.
    reflexivity.
  - intros role provider H. split; [|now apply getRole_Ok_inv with role].
    revert H. unfold getRole.
    repeat match goal with
           | |- context [String.eqb role ?t] =>
               destruct (String.eqb_spec role t) as [->|_];
               [intros _; in_list|]
           end.
    discriminate.
Qed.

(** *** Content translator *)

Ltac provider_cases H :=
  apply getRole_Ok_inv in H; simpl in H;
  destruct H as [<-|[<-|[<-|[<-|[]]]]].

Lemma image_is_not_text (p : MessageContentComplex) :
  isImagePart p = true -> isTextPart p = false.
Proof.
  unfold isImagePart, isTextPart.
  intros H; apply String.eqb_eq in H; rewrite H; reflexivity.
Qed.

(** First revision: the refusal is exactly as stated, the empty array
    included. *)
Lemma getContent_rev1_refuses (role mistralRole : string)
  (parts : list MessageContentComplex) :
  getRole role = Ok mistralRole ->
  refused mistralRole parts ->
  exists e, Rev1.getContent (ContentArray parts) role = Throw e
            /\ isContentShapeError e = true.
Proof.
  intros Hrole Href. unfold Rev1.getContent. rewrite Hrole; simpl.
  provider_cases Hrole; cbn.
  - (* system: only an image part is refused *)
    destruct Href as [[Himg _]|[[_ [_ H]]|[H|H]]]; try congruence.
    match goal with
    | |- context [mapM ?f parts] =>
        destruct (mapM_Throw f parts (fun e => isContentShapeError e = true))
          as (e & -> & He)
    end.
    + intros x e _. destruct (part_type x =? "text"); [discriminate|].
      intros [= <-]; reflexivity.
    + apply existsb_exists in Himg as (x & Hin & Hx).
      exists x; eexists; split; [exact Hin|].
      apply image_is_not_text in Hx. unfold isTextPart in Hx.
      rewrite Hx; reflexivity.
    + now exists e.
  - destruct Href as [[_ H]|[[_ [H _]]|[H|H]]]; congruence.
  - eexists; split; reflexivity.
  - eexists; split; reflexivity.
Qed.

(** Second revision: the same, except that under the assistant and tool
    roles an array is refused only through one of its parts. *)
Lemma getContent_rev2_refuses (role mistralRole : string)
  (parts : list MessageContentComplex) :
  getRole role = Ok mistralRole ->
  refused mistralRole parts ->
  parts <> [] ->
  exists e, Rev2.getContent (ContentArray parts) role = Throw e
            /\ isContentShapeError e = true.
Proof.
  intros Hrole Href Hne. unfold Rev2.getContent. rewrite Hrole; simpl.
  assert (Hsome : exists e,
    mapM (fun c => Rev2._generateContentChunk (ContentArray parts) c mistralRole)
         parts = Throw e /\ isContentShapeError e = true).
  { apply mapM_Throw with (P := fun e => isContentShapeError e = true).
    - intros x e _. unfold Rev2._generateContentChunk.
      repeat match goal with
             | |- context [if ?b then _ else _] => destruct b
             end; try discriminate.
      intros [= <-]; reflexivity.
    - unfold Rev2._generateContentChunk.
      provider_cases Hrole; cbn.
      + destruct Href as [[Himg _]|[[_ [_ H]]|[H|H]]]; try congruence.
        apply existsb_exists in Himg as (x & Hin & Hx).
        exists x; eexists; split; [exact Hin|].
        apply image_is_not_text in Hx. unfold isTextPart in Hx.
        rewrite Hx, !andb_false_r; reflexivity.
      + destruct Href as [[_ H]|[[_ [H _]]|[H|H]]]; congruence.
      + destruct parts as [|x parts']; [congruence|].
        exists x; eexists; split; [now left|].
        rewrite !andb_false_r; reflexivity.
      + destruct parts as [|x parts']; [congruence|].
        exists x; eexists; split; [now left|].
        rewrite !andb_false_r; reflexivity. }
  destruct Hsome as (e & -> & He). now exists e.
Qed.

(** Text parts under system, and text and image parts under user, always
    translate, in both revisions. *)
Lemma getContent_accepts (role : string) (parts : list MessageContentComplex) :
  (getRole role = Ok "system" ->
   forallb isTextPart parts = true ->
   Rev1.getContent (ContentArray parts) role
     = Ok (MistralChunks (map (fun p => TextChunk (part_text p)) parts))
   /\ Rev2.getContent (ContentArray parts) role
     = Ok (MistralChunks (map (fun p => TextChunk (part_text p)) parts)))
  /\ (getRole role = Ok "user" ->
      forallb (fun p => isTextPart p || isImagePart p) parts = true ->
      Rev1.getContent (ContentArray parts) role
        = Ok (MistralChunks (map userChunk parts))
      /\ Rev2.getContent (ContentArray parts) role
        = Ok (MistralChunks (map userChunk parts))).
Proof.
  split; intros Hrole Hall; rewrite forallb_forall in Hall;
    unfold Rev1.getContent, Rev2.getContent; rewrite Hrole; cbn; split.
  - rewrite mapM_map with (g := fun p => TextChunk (part_text p)); [reflexivity|].
    intros x Hx. apply Hall in Hx. unfold isTextPart in Hx. now rewrite Hx.
  - rewrite mapM_map with (g := fun p => TextChunk (part_text p)); [reflexivity|].
    intros x Hx. apply Hall in Hx. unfold isTextPart in Hx.
    unfold Rev2._generateContentChunk. rewrite Hx; cbn.
    now rewrite andb_false_r.
  - rewrite mapM_map with (g := userChunk); [reflexivity|].
    intros x Hx. apply Hall in Hx. unfold userChunk, isTextPart, isImagePart in *.
    destruct (part_type x =? "image_url"); [reflexivity|].
    rewrite orb_false_r in Hx. now rewrite Hx.
  - rewrite mapM_map with (g := userChunk); [reflexivity|].
    intros x Hx. apply Hall in Hx. unfold userChunk, isTextPart, isImagePart in *.
    unfold Rev2._generateContentChunk.
    destruct (part_type x =? "image_url"); [reflexivity|].
    rewrite orb_false_r in Hx. now rewrite Hx.
Qed.

(** C2.  In the second revision an empty array of parts under an ai, tool
    or function message is translated to an empty chunk list instead of
    being refused, although the mapped role is assistant or tool; the first
    revision throws the non-text-content error there. *)
Theorem getContent_rev2_empty_array_not_refused :
  Rev2.getContent (ContentArray []) "ai" = Ok (MistralChunks [])
  /\ Rev2.getContent (ContentArray []) "tool" = Ok (MistralChunks [])
  /\ Rev2.getContent (ContentArray []) "function" = Ok (MistralChunks [])
  /\ getRole "ai" = Ok "assistant"
  /\ refused "assistant" []
  /\ Rev1.getContent (ContentArray []) "ai"
     = Throw (NonTextContentUnsupported (ContentArray [])).
Proof.
  repeat split; try reflexivity.
  right; right; left; reflexivity.
Qed.

(** *** Outbound message builder *)

Lemma getContent_rev1_Ok_role (content : MessageContent) (type : string)
  (c : MistralContent) :
  Rev1.getContent content type = Ok c -> exists role, getRole type = Ok role.
Proof.
  unfold Rev1.getContent. destruct (getRole type) as [role|e]; simpl.
  - intros _; now exists role.
  - discriminate.
Qed.

Lemma getContent_rev2_Ok_role (content : MessageContent) (type : string)
  (c : MistralContent) :
  Rev2.getContent content type = Ok c -> exists role, getRole type = Ok role.
Proof.
  unfold Rev2.getContent. destruct (getRole type) as [role|e]; simpl.
  - intros _; now exists role.
  - discriminate.
Qed.

(** One message: it is converted exactly when its content translates, and
    then to the shape of its kind. *)
Lemma convertMessage_spec
  (getContent : MessageContent -> string -> result MistralContent)
  (Hrole : forall content type c,
      getContent content type = Ok c -> exists role, getRole type = Ok role)
  (m : BaseMessage) (out : MistralAIMessage) :
  convertMessage getContent m = Ok out <->
  exists role content,
    getRole (msg_type m) = Ok role
    /\ getContent (msg_content m) (msg_type m) = Ok content
    /\ out = providerMessage m role content.
Proof.
  unfold convertMessage, providerMessage. split.
  - destruct (getContent (msg_content m) (msg_type m)) as [content|e] eqn:Hc;
      simpl; [|discriminate].
    destruct (Hrole _ _ _ Hc) as (role & Hr). rewrite Hr; simpl.
    intros H. exists role, content. repeat split.
    destruct (msg_tool_call_id m); [|destruct (isAIMessage m)];
      simpl in H; congruence.
  - intros (role & content & Hr & Hc & ->). rewrite Hc, Hr; simpl.
    destruct (msg_tool_call_id m); [|destruct (isAIMessage m)]; reflexivity.
Qed.

Lemma Forall2_nth_error_l {A B : Type} (R : A -> B -> Prop) (l : list A) (l' : list B) :
  Forall2 R l l' ->
  forall i x, nth_error l i = Some x -> exists y, nth_error l' i = Some y /\ R x y.
Proof.
  induction 1 as [|a b l l' Hab _ IH]; intros [|i] x; simpl; try discriminate.
  - intros [= <-]; now exists b.
  - apply IH.
Qed.

Lemma Forall2_length_eq {A B : Type} (R : A -> B -> Prop) (l : list A) (l' : list B) :
  Forall2 R l l' -> List.length l' = List.length l.
Proof. induction 1; simpl; congruence. Qed.

Lemma Forall_Forall2_ex {A B : Type} (R : A -> B -> Prop) (l : list A) :
  Forall (fun x => exists y, R x y) l <-> exists l', Forall2 R l l'.
Proof.
  split.
  - induction 1 as [|x l (y & Hy) _ (l' & IH)].
    + exists []; constructor.
    + exists (y :: l'); now constructor.
  - intros (l' & H). induction H; constructor; eauto.
Qed.

(** The builder over either revision's [getContent]. *)
Lemma convertMessages_spec
  (getContent : MessageContent -> string -> result MistralContent)
  (Hrole : forall content type c,
      getContent content type = Ok c -> exists role, getRole type = Ok role)
  (messages : list BaseMessage) :
  ((exists out, mapM (convertMessage getContent) messages = Ok out) <->
   Forall (fun m => exists content,
             getContent (msg_content m) (msg_type m) = Ok content) messages)
  /\ forall out,
       mapM (convertMessage getContent) messages = Ok out ->
       List.length out = List.length messages
       /\ forall i m,
            nth_error messages i = Some m ->
            exists role content,
              getRole (msg_type m) = Ok role
              /\ getContent (msg_content m) (msg_type m) = Ok content
              /\ nth_error out i = Some (providerMessage m role content).
Proof.
  split.
  - transitivity (exists out,
      Forall2 (fun m o => convertMessage getContent m = Ok o) messages out).
    + split; intros (out & H); exists out; now apply mapM_Ok_Forall2.
    + rewrite <- Forall_Forall2_ex, !Forall_forall.
      split; intros H m Hm; specialize (H m Hm).
      * destruct H as (o & Ho). apply convertMessage_spec in Ho; [|assumption].
        destruct Ho as (role & content & _ & Hc & _). now exists content.
      * destruct H as (content & Hc). destruct (Hrole _ _ _ Hc) as (role & Hr).
        exists (providerMessage m role content).
        apply convertMessage_spec; [assumption|]. now exists role, content.
  - intros out H. apply mapM_Ok_Forall2 in H. split.
    + now apply Forall2_length_eq in H.
    + intros i m Hi.
      destruct (Forall2_nth_error_l _ _ _ H i m Hi) as (o & Ho & Hconv).
      apply convertMessage_spec in Hconv; [|assumption].
      destruct Hconv as (role & content & Hr & Hc & ->).
      now exists role, content.
Qed.

(** C4.  The builder returns a list exactly when the content of every
    message translates, and the list it returns has one provider message
    per input message, at the same position, of the shape of that message's
    kind: role, content, name and the coerced id for a message with a string
    [tool_call_id]; role, content and tool calls for an AI message; role and
    content otherwise. *)
Theorem convertMessagesToMistralMessages_one_to_one (messages : list BaseMessage) :
  ((exists out, convertMessagesToMistralMessages messages = Ok out) <->
   Forall (fun m => exists content,
             Rev1.getContent (msg_content m) (msg_type m) = Ok content) messages)
  /\ forall out,
       convertMessagesToMistralMessages messages = Ok out ->
       List.length out = List.length messages
       /\ forall i m,
            nth_error messages i = Some m ->
            exists role content,
              getRole (msg_type m) = Ok role
              /\ Rev1.getContent (msg_content m) (msg_type m) = Ok content
              /\ nth_error out i = Some
                   match msg_tool_call_id m with
                   | Some tool_call_id =>
                       ToolResultMessage role content (msg_name m)
                         (_convertToolCallIdToMistralCompatible tool_call_id)
                   | None =>
                       if isAIMessage m
                       then AssistantMessage role content (getTools m)
                       else PlainMessage role content
                   end.
Proof.
  apply (convertMessages_spec Rev1.getContent getContent_rev1_Ok_role).
Qed.

(** The second revision's builder behaves the same way over its own
    [getContent]. *)
Lemma convertMessagesToMistralMessages_rev2_one_to_one (messages : list BaseMessage) :
  ((exists out, convertMessagesToMistralMessages_rev2 messages = Ok out) <->
   Forall (fun m => exists content,
             Rev2.getContent (msg_content m) (msg_type m) = Ok content) messages)
  /\ forall out,
       convertMessagesToMistralMessages_rev2 messages = Ok out ->
       List.length out = List.length messages
       /\ forall i m,
            nth_error messages i = Some m ->
            exists role content,
              getRole (msg_type m) = Ok role
              /\ Rev2.getContent (msg_content m) (msg_type m) = Ok content
              /\ nth_error out i = Some (providerMessage m role content).
Proof.
  apply (convertMessages_spec Rev2.getContent getContent_rev2_Ok_role).
Qed.

(** *** Non-stream response decoder *)

Lemma removeDashes_withoutDashes (s : string) : removeDashes s = withoutDashes s.
Proof.
  unfold withoutDashes. induction s as [|c s IH]; simpl; [reflexivity|].
  destruct (Ascii.eqb c "-"); simpl; now rewrite IH.
Qed.

Lemma draws_succ (k : nat) (rng : Rng) :
  draws (S k) rng = snd (uuidv4 (draws k rng)).
Proof.
  revert rng; induction k as [|k IH]; intros rng; [reflexivity|].
  change (draws (S (S k)) rng) with (draws (S k) (snd (uuidv4 rng))).
  now rewrite IH.
Qed.

Lemma flat_map_snoc {A B : Type} (f : A -> list B) (l : list A) (x : A) :
  flat_map f (l ++ [x]) = flat_map f l ++ f x.
Proof. rewrite flat_map_app; simpl. now rewrite app_nil_r. Qed.

(** A list that ends with [x], split at one of its elements. *)
Lemma snoc_split {A : Type} (before after l : list A) (a x : A) :
  before ++ a :: after = l ++ [x] ->
  (after = [] /\ before = l /\ a = x)
  \/ exists after', after = after' ++ [x] /\ l = before ++ a :: after'.
Proof.
  induction after as [|y after' _] using rev_ind; intros H.
  - left. apply app_inj_tail in H as (-> & ->). auto.
  - right. exists after'.
    change (before ++ a :: after' ++ [y]) with (before ++ (a :: after') ++ [y]) in H.
    rewrite app_assoc in H. apply app_inj_tail in H as (<- & ->). auto.
Qed.

(** The loop over the raw tool calls, from the empty arrays: what it has
    rejected, how many ids it has drawn, and the call it has returned for
    each raw call that parsed. *)
Lemma decode_loop_spec (rawToolCalls : list MistralAIToolCall) (rng : Rng) :
  let st := fold_left decodeToolCall rawToolCalls (mkDecodeState [] [] rng) in
  invalidToolCalls st = rejected rawToolCalls
  /\ List.length (toolCalls st) = List.length (wellFormed rawToolCalls)
  /\ decode_rng st
     = draws (List.length (filter parsesWithoutId rawToolCalls)) rng
  /\ forall before raw after parsed,
       rawToolCalls = before ++ raw :: after ->
       parseToolCall raw = ParseReturns (Some parsed) ->
       nth_error (toolCalls st) (List.length (wellFormed before))
       = Some (returnedCall parsed
                 (List.length (filter parsesWithoutId before)) rng).
Proof.
  induction rawToolCalls as [|r raws IH] using rev_ind.
  - simpl. repeat split; try reflexivity.
    intros [|? ?] ? ? ? H; discriminate H.
  - cbv zeta in *. rewrite fold_left_app. cbn [fold_left].
    destruct IH as (Hinv & Hlen & Hrng & Hcalls).
    set (st := fold_left decodeToolCall raws (mkDecodeState [] [] rng)) in *.
    set (k := List.length (filter parsesWithoutId raws)) in *.
    assert (Hwf : forall l l', wellFormed (l ++ l') = wellFormed l ++ wellFormed l')
      by (intros; unfold wellFormed; apply flat_map_app).
    assert (Hrej : rejected (raws ++ [r]) = rejected raws ++ rejected [r])
      by (unfold rejected; apply flat_map_app).
    rewrite Hwf, Hrej, filter_app, !length_app. fold k.
    assert (Hearlier : forall before raw after' parsed calls,
      raws = before ++ raw :: after' ->
      parseToolCall raw = ParseReturns (Some parsed) ->
      nth_error (toolCalls st ++ calls) (List.length (wellFormed before))
      = Some (returnedCall parsed
                (List.length (filter parsesWithoutId before)) rng)).
    { intros before raw after' parsed calls Hsplit Hparsed.
      rewrite nth_error_app1; [now apply (Hcalls before raw after')|].
      assert (Hraw : wellFormed [raw] = [parsed])
        by (unfold wellFormed; simpl; now rewrite Hparsed).
      rewrite Hlen, Hsplit, Hwf, length_app.
      change (raw :: after') with ([raw] ++ after').
      rewrite Hwf, length_app, Hraw. simpl. lia. }
    destruct (parseToolCall r) as [[parsed|]|message] eqn:Hr.
    + assert (Hstep : decodeToolCall st r
                      = mkDecodeState (toolCalls st ++ [returnedCall parsed k rng])
                          (invalidToolCalls st)
                          (draws (k + List.length (filter parsesWithoutId [r])) rng)).
      { unfold decodeToolCall, returnedCall. simpl filter.
        unfold parsesWithoutId. rewrite Hr.
        destruct (call_id parsed) as [id|].
        - simpl. now rewrite Nat.add_0_r, Hrng.
        - unfold freshId. rewrite Hrng.
          destruct (uuidv4 (draws k rng)) as [u rng1] eqn:Hu. simpl.
          rewrite Nat.add_1_r, draws_succ, Hu, removeDashes_withoutDashes.
          reflexivity. }
      assert (Hone : wellFormed [r] = [parsed])
        by (unfold wellFormed; simpl; now rewrite Hr).
      assert (Hnone : rejected [r] = [])
        by (unfold rejected, rejection; simpl; now rewrite Hr).
      rewrite Hstep, Hone, Hnone. cbn [toolCalls invalidToolCalls decode_rng].
      rewrite app_nil_r, length_app, Hlen. cbn [List.length].
      repeat split; try assumption; try reflexivity.
      intros before raw after parsed' Hsplit Hparsed. symmetry in Hsplit.
      destruct (snoc_split _ _ _ _ _ Hsplit)
        as [(-> & -> & ->)|(after' & -> & Hraws)].
      * rewrite nth_error_app2 by (rewrite Hlen; reflexivity).
        rewrite Hlen, Nat.sub_diag. simpl. fold k. congruence.
      * now apply (Hearlier before raw after').
    + assert (Hstep : decodeToolCall st r
                      = mkDecodeState (toolCalls st)
                          (invalidToolCalls st ++ rejected [r]) (decode_rng st)).
      { unfold decodeToolCall, rejected, rejection. simpl. now rewrite Hr. }
      assert (Hone : wellFormed [r] = [])
        by (unfold wellFormed; simpl; now rewrite Hr).
      assert (Hdraw : filter parsesWithoutId [r] = [])
        by (simpl; unfold parsesWithoutId; now rewrite Hr).
      rewrite Hstep, Hone, Hdraw. cbn [toolCalls invalidToolCalls decode_rng].
      rewrite Hinv. cbn [List.length]. rewrite !Nat.add_0_r.
      repeat split; try assumption; try reflexivity.
      intros before raw after parsed Hsplit Hparsed. symmetry in Hsplit.
      destruct (snoc_split _ _ _ _ _ Hsplit)
        as [(-> & -> & ->)|(after' & -> & Hraws)]; [congruence|].
      rewrite <- (app_nil_r (toolCalls st)).
      now apply (Hearlier before raw after').
    + assert (Hstep : decodeToolCall st r
                      = mkDecodeState (toolCalls st)
                          (invalidToolCalls st ++ rejected [r]) (decode_rng st)).
      { unfold decodeToolCall, rejected, rejection. simpl. now rewrite Hr. }
      assert (Hone : wellFormed [r] = [])
        by (unfold wellFormed; simpl; now rewrite Hr).
      assert (Hdraw : filter parsesWithoutId [r] = [])
        by (simpl; unfold parsesWithoutId; now rewrite Hr).
      rewrite Hstep, Hone, Hdraw. cbn [toolCalls invalidToolCalls decode_rng].
      rewrite Hinv. cbn [List.length]. rewrite !Nat.add_0_r.
      repeat split; try assumption; try reflexivity.
      intros before raw after parsed Hsplit Hparsed. symmetry in Hsplit.
      destruct (snoc_split _ _ _ _ _ Hsplit)
        as [(-> & -> & ->)|(after' & -> & Hraws)]; [congruence|].
      rewrite <- (app_nil_r (toolCalls st)).
      now apply (Hearlier before raw after').
Qed.

Lemma rejected_wellFormed_length (rawToolCalls : list MistralAIToolCall) :
  (List.length (wellFormed rawToolCalls) + List.length (rejected rawToolCalls))%nat
  = List.length rawToolCalls.
Proof.
  unfold wellFormed, rejected, rejection.
  induction rawToolCalls as [|raw raws IH]; simpl; [reflexivity|].
  rewrite !length_app.
  destruct (parseToolCall raw) as [[parsed|]|message]; simpl; lia.
Qed.

(** C3.  A response message with role assistant always decodes to an AI
    message.  Its invalid tool calls are, in order, the records built from
    each raw call that was rejected and from the message of its rejection.
    Its tool calls are, in order, the raw calls that parsed, each with the
    parsed name and arguments and with the provider's id or, when that is
    missing, a new id: the next uuid of the generator without its dashes,
    so that the k-th synthesized id comes from the k-th draw.  The
    generator is left after as many draws as ids were synthesized, and
    every raw call ends in exactly one of the two lists. *)
Theorem mistralAIResponseToChatMessage_recovers_invalid_tool_calls
  (message : ResponseMessage) (usage : option UsageInfo) (rng : Rng) :
  resp_role message = Some "assistant" ->
  let rawToolCalls :=
    match resp_tool_calls message with
    | Some l => l
    | None => []
    end in
  exists tool_calls,
    mistralAIResponseToChatMessage (mkResponseChoice (Some message)) usage rng
    = Ok (AIMessage (contentOrEmpty (resp_content message)) tool_calls
            (rejected rawToolCalls) (usage_metadata_of usage),
          draws (List.length (filter parsesWithoutId rawToolCalls)) rng)
    /\ (forall before raw after parsed,
          rawToolCalls = before ++ raw :: after ->
          parseToolCall raw = ParseReturns (Some parsed) ->
          nth_error tool_calls (List.length (wellFormed before))
          = Some (returnedCall parsed
                    (List.length (filter parsesWithoutId before)) rng))
    /\ List.length tool_calls = List.length (wellFormed rawToolCalls)
    /\ (List.length tool_calls + List.length (rejected rawToolCalls))%nat
       = List.length rawToolCalls.
Proof.
  intros Hrole rawToolCalls.
  unfold mistralAIResponseToChatMessage; simpl. rewrite Hrole; cbn.
  fold rawToolCalls.
  destruct (decode_loop_spec rawToolCalls rng) as (Hinv & Hlen & Hrng & Hcalls).
  eexists. split; [rewrite Hinv, Hrng; reflexivity|].
  split; [exact Hcalls|]. split; [exact Hlen|].
  rewrite Hlen. apply rejected_wellFormed_length.
Qed.

Lemma withIndex_length (tool_calls : list MistralAIToolCall) (index : nat) (rng : Rng) :
  List.length (fst (withIndex tool_calls index rng)) = List.length tool_calls.
Proof.
  revert index rng; induction tool_calls as [|t l IH]; intros index rng; simpl.
  - reflexivity.
  - destruct (tc_id t) as [id|]; [|destruct (freshId rng) as [id rng1]].
    + specialize (IH (S index) rng).
      destruct (withIndex l (S index) rng); simpl in *; congruence.
    + specialize (IH (S index) rng1).
      destruct (withIndex l (S index) rng1); simpl in *; congruence.
Qed.

(** The first fragment carries the provider's id, or a drawn one. *)
Lemma withIndex_first_id (t : MistralAIToolCall) (l : list MistralAIToolCall)
  (index : nat) (rng : Rng) :
  exists first rest,
    fst (withIndex (t :: l) index rng) = first :: rest
    /\ itc_index first = index
    /\ itc_id first = match tc_id t with
                      | Some id => id
                      | None => fst (freshId rng)
                      end.
Proof.
  simpl. destruct (tc_id t) as [id|]; [|destruct (freshId rng) as [id rng1]].
  - destruct (withIndex l (S index) rng) as [rest rng2]. simpl. eauto.
  - destruct (withIndex l (S index) rng1) as [rest rng2]. simpl. eauto.
Qed.

(** The fragment list that the decoder indexes into is never empty. *)
Lemma firstFragmentId_total (delta : Delta) (rng : Rng) :
  firstFragmentId
    (if hasLength (delta_tool_calls delta)
     then Some (fragments delta rng) else None)
  = Ok match fragments delta rng with
       | first :: _ => itc_id first
       | [] => ""
       end.
Proof.
  unfold fragments. destruct (delta_tool_calls delta) as [[|t l]|]; simpl;
    try reflexivity.
  destruct (withIndex_first_id t l 0 rng) as (first & rest & H & _).
  simpl in H. rewrite H. reflexivity.
Qed.

(** The decoder past its first test, with the fragment list named. *)
Lemma convertDelta_nonempty (delta : Delta) (usage : option UsageInfo) (rng : Rng) :
  negb (truthyString (delta_content delta))
  && negb (truthyArray (delta_tool_calls delta)) = false ->
  let raw := if hasLength (delta_tool_calls delta)
             then Some (fragments delta rng) else None in
  let rng' := match delta_tool_calls delta with
              | Some (t :: l) => snd (withIndex (t :: l) 0 rng)
              | _ => rng
              end in
  let role := if truthyString (delta_role delta)
              then match delta_role delta with Some r => r | None => "assistant" end
              else "assistant" in
  let content := match delta_content delta with Some c => c | None => "" end in
  let additional_kwargs := match raw with Some _ => None | None => Some tt end in
  let toolCallChunks := match raw with Some l => map toToolCallChunk l | None => [] end in
  _convertDeltaToMessageChunk delta usage rng =
    if role =? "user" then Ok (Some (HumanMessageChunk content), rng')
    else if role =? "assistant" then
      Ok (Some (AIMessageChunk content (Some toolCallChunks) additional_kwargs
                  (usage_metadata_of usage)), rng')
    else if role =? "tool" then
      tool_call_id <- firstFragmentId raw ;;
      Ok (Some (ToolMessageChunk content additional_kwargs tool_call_id), rng')
    else if role =? "function" then
      Ok (Some (FunctionMessageChunk content additional_kwargs), rng')
    else Ok (Some (ChatMessageChunk content role), rng').
Proof.
  intros Hne. unfold _convertDeltaToMessageChunk, fragments. rewrite Hne.
  destruct (delta_tool_calls delta) as [[|t l]|]; try reflexivity.
  cbv zeta. unfold hasLength.
  destruct (withIndex (t :: l) 0 rng) as [frags rng1]. reflexivity.
Qed.

(** No delta makes the decoder throw. *)
Lemma convertDelta_never_throws (delta : Delta) (usage : option UsageInfo) (rng : Rng) :
  exists r rng', _convertDeltaToMessageChunk delta usage rng = Ok (r, rng').
Proof.
  destruct (negb (truthyString (delta_content delta))
            && negb (truthyArray (delta_tool_calls delta))) eqn:Hempty.
  - unfold _convertDeltaToMessageChunk. rewrite Hempty.
    destruct usage; eauto.
  - rewrite (convertDelta_nonempty delta usage rng Hempty).
    rewrite firstFragmentId_total.
    repeat match goal with
           | |- context [if String.eqb ?a ?b then _ else _] =>
               destruct (String.eqb a b)
           end; simpl; eauto.
Qed.

(** A delta with empty or absent content and absent tool calls: nothing
    without usage, an empty assistant chunk carrying the usage with it. *)
Lemma convertDelta_absent_tool_calls (delta : Delta) (usage : option UsageInfo)
  (rng : Rng) :
  truthyString (delta_content delta) = false ->
  delta_tool_calls delta = None ->
  _convertDeltaToMessageChunk delta usage rng =
    match usage with
    | None => Ok (None, rng)
    | Some u =>
        Ok (Some (AIMessageChunk "" None None
                    (Some (mkUsageMetadata (promptTokens u) (completionTokens u)
                             (totalTokens u)))), rng)
    end.
Proof.
  intros Hc Ht. unfold _convertDeltaToMessageChunk. rewrite Hc, Ht; simpl.
  destruct usage; reflexivity.
Qed.

(** C6.  A delta whose content is the empty string and whose tool-call
    list is the empty array, with no usage, is not skipped: the decoder
    returns an assistant chunk with empty content.  With usage and the user
    role it returns a user chunk that carries no usage. *)
Theorem convertDelta_empty_tool_call_array_not_skipped (rng : Rng) (u : UsageInfo) :
  _convertDeltaToMessageChunk (mkDelta None (Some "") (Some [])) None rng
  = Ok (Some (AIMessageChunk "" (Some []) (Some tt) None), rng)
  /\ _convertDeltaToMessageChunk (mkDelta None None (Some [])) None rng
     = Ok (Some (AIMessageChunk "" (Some []) (Some tt) None), rng)
  /\ _convertDeltaToMessageChunk (mkDelta (Some "user") None (Some [])) (Some u) rng
     = Ok (Some (HumanMessageChunk ""), rng).
Proof. repeat split. Qed.

(** C7.  For a delta with role tool the decoder never throws; whenever it
    returns a tool-result chunk, that chunk's [tool_call_id] is the id of the
    first tool-call fragment, or the empty string when there is no fragment;
    and it returns such a chunk unless the delta has neither content nor a
    tool-call list (the case that is skipped or answered with a usage-only
    assistant chunk). *)
Theorem convertDelta_tool_reference_id (delta : Delta) (usage : option UsageInfo)
  (rng : Rng) :
  delta_role delta = Some "tool" ->
  let reference :=
    match fragments delta rng with
    | first :: _ => itc_id first
    | [] => ""
    end in
  (exists r rng', _convertDeltaToMessageChunk delta usage rng = Ok (r, rng'))
  /\ (forall content kwargs id rng',
        _convertDeltaToMessageChunk delta usage rng
        = Ok (Some (ToolMessageChunk content kwargs id), rng') ->
        id = reference)
  /\ (truthyString (delta_content delta) = true
      \/ delta_tool_calls delta <> None ->
      exists kwargs rng',
        _convertDeltaToMessageChunk delta usage rng
        = Ok (Some (ToolMessageChunk
                      match delta_content delta with Some c => c | None => "" end
                      kwargs reference), rng')).
Proof.
  intros Hrole reference. split; [apply convertDelta_never_throws|].
  destruct (negb (truthyString (delta_content delta))
            && negb (truthyArray (delta_tool_calls delta))) eqn:Hempty.
  - split.
    + intros content kwargs id rng'. unfold _convertDeltaToMessageChunk.
      rewrite Hempty. destruct usage; discriminate.
    + apply andb_true_iff in Hempty as [Hc Ht].
      apply negb_true_iff in Hc, Ht.
      intros [H|H]; [congruence|].
      destruct (delta_tool_calls delta); [discriminate|congruence].
  - rewrite (convertDelta_nonempty delta usage rng Hempty).
    rewrite firstFragmentId_total, Hrole. cbn. fold reference. split.
    + intros content kwargs id rng' [= _ _ <- _]. reflexivity.
    + intros _. eauto.
Qed.

(** *** The transport call *)

Lemma prefix_app (sub s : string) :
  String.prefix sub s = true <-> exists post, s = (sub ++ post)%string.
Proof.
  revert s; induction sub as [|c sub IH]; intros s; simpl.
  - split; [intros _; now exists s|intros _; now destruct s].
  - destruct s as [|d s]; [split; [discriminate|intros (post & [=])]|].
    simpl. destruct (ascii_dec c d) as [->|Hcd].
    + rewrite IH. split; intros (post & H); exists post; congruence.
    + split; [discriminate|]. intros (post & [= H _]); congruence.
Qed.

(** [includes] finds exactly the substrings. *)
Lemma includes_spec (s sub : string) :
  includes s sub = true <-> exists pre post, s = (pre ++ sub ++ post)%string.
Proof.
  induction s as [|c s IH].
  - simpl. split.
    + intros H; apply String.eqb_eq in H; subst. now exists "", "".
    + intros (pre & post & H). destruct pre; [|discriminate].
      destruct sub; [reflexivity|discriminate].
  - cbn [includes]. rewrite orb_true_iff, IH, prefix_app. split.
    + intros [(post & H)|(pre & post & H)].
      * now exists "", post.
      * exists (String c pre), post. simpl. now rewrite H.
    + intros (pre & post & H). destruct pre as [|d pre].
      * left. now exists post.
      * right. exists pre, post. simpl in H. congruence.
Qed.

(** C8.  An error thrown by the SDK call whose message contains
    "status: 400" or "validation failed", or "status 400" once lowercased,
    is rethrown with status 400 and the same message; any other error is
    rethrown as it is; a thrown error is never turned into a return, and a
    returned value is passed on. *)
Theorem completionWithRetry_rethrows (R : Type) (e : JsError) :
  (forall message,
     err_message e = Some message ->
     includes message "status: 400" = true
     \/ includes (toLowerCase message) "status 400" = true
     \/ includes message "validation failed" = true ->
     @completionWithRetry R (Thrown e) = Thrown (mkJsError (Some message) (Some 400)))
  /\ ((forall message,
         err_message e = Some message ->
         includes message "status: 400" = false
         /\ includes (toLowerCase message) "status 400" = false
         /\ includes message "validation failed" = false) ->
      @completionWithRetry R (Thrown e) = Thrown e)
  /\ (exists e', @completionWithRetry R (Thrown e) = Thrown e'
                 /\ err_message e' = err_message e)
  /\ forall res : R, completionWithRetry (Returned res) = Returned res.
Proof.
  unfold completionWithRetry, isStatus400. repeat split.
  - intros message Hm H. rewrite Hm.
    replace (_ || _ || _) with true; [reflexivity|].
    symmetry. rewrite !orb_true_iff. destruct H as [H|[H|H]]; auto.
  - intros H. destruct (err_message e) as [message|]; [|reflexivity].
    destruct (H message eq_refl) as (-> & -> & ->). reflexivity.
  - destruct (match err_message e with Some _ => _ | None => _ end);
      eexists; split; reflexivity.
Qed.

(** *** Usage reporting in the stream *)

(** C9.  Unless the instance was built with [streamUsage: false], the
    usage flag is on for every call whatever the call's own [streamUsage]
    option says, and the event's usage is what the decoder receives; the
    flag is off exactly when the instance was built with [streamUsage: false]
    and the call does not pass [streamUsage: true]. *)
Theorem streamUsage_not_disabled_per_call (fields : option ChatMistralAIInput)
  (options : CallOptions) (data_usage : option UsageInfo) :
  let this := constructor fields in
  let built_off := exists f, fields = Some f /\ fields_streamUsage f = Some false in
  (streamUsage this = false <-> built_off)
  /\ (~ built_off ->
      truthy (shouldStreamUsage this options) = true
      /\ usageArgument this options data_usage = data_usage)
  /\ (truthy (shouldStreamUsage this options) = false <->
      built_off /\ options_streamUsage options <> Some true).
Proof.
  unfold usageArgument, shouldStreamUsage, constructor; simpl.
  destruct fields as [[[[|]|]]|]; simpl.
  - split; [split; [discriminate|intros (f & [= <-] & [=])]|].
    split; [intros _; split; reflexivity|].
    split; [discriminate|intros ((f & [= <-] & [=]) & _)].
  - split; [split; [intros _; eexists; split; reflexivity|reflexivity]|].
    split; [intros H; exfalso; apply H; eexists; split; reflexivity|].
    destruct (options_streamUsage options) as [[|]|]; simpl; split;
      try discriminate; try (intros [_ H]; congruence);
      intros _; (split; [eexists; split; reflexivity|discriminate]).
  - split; [split; [discriminate|intros (f & [= <-] & [=])]|].
    split; [intros _; split; reflexivity|].
    split; [discriminate|intros ((f & [= <-] & [=]) & _)].
  - split; [split; [discriminate|intros (f & [=] & _)]|].
    split; [intros _; split; reflexivity|].
    split; [discriminate|intros ((f & [=] & _) & _)].
Qed.

(** *** One event of the stream *)

(** C10.  The event handler reads only the first choice: replacing the
    other choices of an event changes nothing.  Unless the abort signal has
    fired, an event with no payload, with no choice, or whose first choice
    has no delta is skipped without a chunk and without an error, and a
    chunk that is yielded carries the first choice's index (0 when absent),
    the delta's content as text and the chunk decoded from the delta.  Once
    the signal has fired every event throws the abort error. *)
Theorem streamEvent_reads_first_choice (this : ChatMistralAI) (options : CallOptions)
  (aborted : bool) (first : StreamChoice) (rest : list StreamChoice)
  (data_usage : option UsageInfo) (rng : Rng) :
  (forall rest',
     streamEvent this options aborted
       (Some (mkCompletionChunk (first :: rest) data_usage)) rng
     = streamEvent this options aborted
         (Some (mkCompletionChunk (first :: rest') data_usage)) rng)
  /\ (aborted = false ->
      streamEvent this options aborted None rng = Ok (None, rng)
      /\ streamEvent this options aborted
           (Some (mkCompletionChunk [] data_usage)) rng = Ok (None, rng)
      /\ (choice_delta first = DeltaMissing \/ choice_delta first = DeltaNullish ->
          streamEvent this options aborted
            (Some (mkCompletionChunk (first :: rest) data_usage)) rng
          = Ok (None, rng))
      /\ forall delta chunk rng',
           choice_delta first = DeltaPresent delta ->
           streamEvent this options aborted
             (Some (mkCompletionChunk (first :: rest) data_usage)) rng
           = Ok (Some chunk, rng') ->
           generationInfo chunk
           = Some (mkNewTokenIndices 0
                     (Some match choice_index first with
                           | Some i => i
                           | None => 0
                           end))
           /\ gen_text chunk
              = match delta_content delta with Some c => c | None => "" end
           /\ _convertDeltaToMessageChunk delta
                (usageArgument this options data_usage) rng
              = Ok (Some (gen_message chunk), rng'))
  /\ (aborted = true ->
      forall data, streamEvent this options aborted data rng = Throw AbortError).
Proof.
  split; [reflexivity|]. split.
  - intros ->. split; [reflexivity|]. split; [reflexivity|]. split.
    + intros [H|H]; unfold streamEvent; simpl; rewrite H; reflexivity.
    + intros delta chunk rng' Hd. unfold streamEvent; simpl. rewrite Hd.
      destruct (_convertDeltaToMessageChunk delta
                  (usageArgument this options data_usage) rng)
        as [[[message|] rng1]|e]; simpl; try discriminate.
      intros [= <- <-]. simpl. auto.
  - intros -> data. reflexivity.
Qed.

(** A skipped event leaves no trace in what the generator yields. *)
Lemma streamResponseChunks_skip (this : ChatMistralAI) (options : CallOptions)
  (data : option CompletionChunk) (rest : list (bool * option CompletionChunk))
  (rng : Rng) :
  streamEvent this options false data rng = Ok (None, rng) ->
  _streamResponseChunks this options ((false, data) :: rest) rng
  = _streamResponseChunks this options rest rng.
Proof. intros H. cbn [_streamResponseChunks]. now rewrite H. Qed.

(** An event that arrives after the abort signal ends the generator with
    the abort error, and the streaming call with it: nothing aggregated so
    far is returned. *)
Lemma generate_aborted (this : ChatMistralAI) (messages : list BaseMessage)
  (options : CallOptions)
  (before rest : list (bool * option CompletionChunk))
  (data : option CompletionChunk) (rng : Rng) :
  (exists out, convertMessagesToMistralMessages messages = Ok out) ->
  Forall (fun event => fst event = false) before ->
  _generate this messages options (Returned (before ++ (true, data) :: rest)) rng
  = Throw AbortError.
Proof.
  unfold _generate, openStream. intros (out & ->) Hbefore. simpl.
  assert (H : forall rng, exists chunks,
    _streamResponseChunks this options (before ++ (true, data) :: rest) rng
    = (chunks, Some AbortError)).
  { induction Hbefore as [|[aborted d] before Hfalse _ IH]; intros rng0.
    - now exists [].
    - simpl in Hfalse; subst aborted. cbn [app _streamResponseChunks].
      destruct (streamEvent this options false d rng0) as [[[chunk|] rng1]|e] eqn:He.
      + destruct (IH rng1) as (chunks & ->). now exists (chunk :: chunks).
      + apply IH.
      + exfalso. revert He. unfold streamEvent.
        destruct d as [d|]; [|discriminate].
        destruct (choices d) as [|choice ?]; [discriminate|].
        destruct (choice_delta choice) as [| |delta]; try discriminate.
        destruct (convertDelta_never_throws delta
                    (usageArgument this options (usage d)) rng0)
          as (r & rng1 & ->).
        destruct r; discriminate. }
  destruct (H rng) as (chunks & ->). reflexivity.
Qed.

(** *** Aggregation of the streamed chunks *)










Section Objects.

Context {V : Type}.


Lemma obj_get_In (o : JsObject V) (key : string) (v : V) :
  obj_get o key = Some v -> In (key, v) o.
Proof.
  induction o as [|[k w] o IH]; simpl; [discriminate|].
  destruct (String.eqb_spec k key) as [->|Hk].
  - intros [= ->]; now left.
  - intros H; right; now apply IH.
Qed.

Lemma obj_get_None (o : JsObject V) (key : string) :
  obj_get o key = None -> ~ In key (map fst o).
Proof.
  induction o as [|[k w] o IH]; simpl; [intros _ []|].
  destruct (String.eqb_spec k key) as [->|Hk]; [discriminate|].
  intros H [Hin|Hin]; [congruence|]. now apply IH.
Qed.


(** Writing a property adds its key when it is new, and no other key. *)
Lemma obj_set_keys (o : JsObject V) (key : string) (v : V) :
  map fst (obj_set o key v)
  = match obj_get o key with
    | Some _ => map fst o
    | None => map fst o ++ [key]
    end.
Proof.
  induction o as [|[k w] o IH]; simpl; [reflexivity|].
  destruct (String.eqb_spec k key) as [->|Hk]; simpl; [reflexivity|].
  rewrite IH. now destruct (obj_get o key).
Qed.

Lemma obj_set_NoDup (o : JsObject V) (key : string) (v : V) :
  NoDup (map fst o) -> NoDup (map fst (obj_set o key v)).
Proof.
  intros Hnd. rewrite obj_set_keys.
  destruct (obj_get o key) eqn:Hget; [assumption|].
  apply obj_get_None in Hget.
  apply (Permutation_NoDup (l := key :: map fst o)).
  - apply Permutation_cons_append.
  - now constructor.
Qed.

End Objects.

Section Sorting.

Context {V : Type}.








End Sorting.










(** ** Further properties of the module *)

(** *** Content translator: exact success conditions *)

Lemma mapM_Ok_mono {A B : Type} (f g : A -> result B) (l : list A) (ys : list B) :
  (forall x y, In x l -> f x = Ok y -> g x = Ok y) ->
  mapM f l = Ok ys -> mapM g l = Ok ys.
Proof.
  revert ys; induction l as [|x l IH]; intros ys Hfg; simpl; [trivial|].
  destruct (f x) as [y|e] eqn:Hx; simpl; [|discriminate].
  rewrite (Hfg x y (or_introl eq_refl) Hx); simpl.
  destruct (mapM f l) as [zs|e] eqn:Hl; simpl; [|discriminate].
  rewrite (IH zs); [trivial| |reflexivity].
  intros z w Hz; apply Hfg; now right.
Qed.

(** A map that succeeds took, on every element, the successful branch of
    its callback. *)
Lemma mapM_Ok_inv {A B : Type} (f : A -> result B) (p : A -> bool) (g : A -> B)
  (l : list A) (ys : list B) :
  (forall x y, f x = Ok y -> p x = true /\ y = g x) ->
  mapM f l = Ok ys -> forallb p l = true /\ ys = map g l.
Proof.
  intros Hf. revert ys; induction l as [|x l IH]; intros ys; simpl.
  - intros [= <-]; auto.
  - destruct (f x) as [y|e] eqn:Hx; simpl; [|discriminate].
    destruct (mapM f l) as [zs|e] eqn:Hl; simpl; [|discriminate].
    intros [= <-]. destruct (Hf x y Hx) as (-> & ->).
    destruct (IH zs eq_refl) as (-> & ->). auto.
Qed.

(** X1.  First revision: [getContent] returns exactly when the message
    type is one of the five known ones and the content is a string
    (returned unchanged), or an array under the user role whose parts are
    all text or image parts, or an array under the system role whose parts
    are all text parts; the chunks are the parts in order. *)
Theorem getContent_rev1_Ok_iff (content : MessageContent) (type : string)
  (c : MistralContent) :
  Rev1.getContent content type = Ok c <->
  exists role,
    getRole type = Ok role
    /\ ((exists s, content = ContentString s /\ c = MistralString s)
        \/ (exists parts,
              content = ContentArray parts /\ role = "user"
              /\ forallb (fun p => isTextPart p || isImagePart p) parts = true
              /\ c = MistralChunks (map userChunk parts))
        \/ (exists parts,
              content = ContentArray parts /\ role = "system"
              /\ forallb isTextPart parts = true
              /\ c = MistralChunks (map (fun p => TextChunk (part_text p)) parts))).
Proof.
  split.
  - unfold Rev1.getContent.
    destruct (getRole type) as [role|e] eqn:Hrole; simpl; [|discriminate].
    intros H. exists role. split; [reflexivity|].
    destruct content as [s|parts].
    + left. exists s. split; congruence.
    + right. pose proof Hrole as Hcases. provider_cases Hcases; cbn in H.
      * right. exists parts.
        destruct (mapM _ parts) as [chunks|e] eqn:Hmap; [|discriminate].
        injection H as <-.
        apply mapM_Ok_inv with (p := isTextPart)
          (g := fun p => TextChunk (part_text p)) in Hmap.
        -- destruct Hmap as (Hall & ->). auto.
        -- intros x y. unfold isTextPart.
           destruct (part_type x =? "text"); [|discriminate].
           intros [= <-]; auto.
      * left. exists parts.
        destruct (mapM _ parts) as [chunks|e] eqn:Hmap; [|discriminate].
        injection H as <-.
        apply mapM_Ok_inv with (p := fun p => isTextPart p || isImagePart p)
          (g := userChunk) in Hmap.
        -- destruct Hmap as (Hall & ->). auto.
        -- intros x y. unfold userChunk, isTextPart, isImagePart.
           destruct (part_type x =? "image_url");
             [intros [= <-]; now rewrite orb_true_r|].
           destruct (part_type x =? "text"); [|discriminate].
           intros [= <-]; auto.
      * discriminate.
      * discriminate.
  - intros (role & Hrole & [(s & -> & ->)|[(parts & -> & -> & Hall & ->)
                                          |(parts & -> & -> & Hall & ->)]]).
    + unfold Rev1.getContent. now rewrite Hrole.
    + now apply getContent_accepts.
    + now apply getContent_accepts.
Qed.

(** X2.  Second revision: as in the first, and besides an empty array is
    returned as an empty chunk list under the assistant and tool roles. *)
Theorem getContent_rev2_Ok_iff (content : MessageContent) (type : string)
  (c : MistralContent) :
  Rev2.getContent content type = Ok c <->
  exists role,
    getRole type = Ok role
    /\ ((exists s, content = ContentString s /\ c = MistralString s)
        \/ (exists parts,
              content = ContentArray parts /\ role = "user"
              /\ forallb (fun p => isTextPart p || isImagePart p) parts = true
              /\ c = MistralChunks (map userChunk parts))
        \/ (exists parts,
              content = ContentArray parts /\ role = "system"
              /\ forallb isTextPart parts = true
              /\ c = MistralChunks (map (fun p => TextChunk (part_text p)) parts))
        \/ (content = ContentArray [] /\ c = MistralChunks []
            /\ (role = "assistant" \/ role = "tool"))).
Proof.
  split.
  - unfold Rev2.getContent.
    destruct (getRole type) as [role|e] eqn:Hrole; simpl; [|discriminate].
    intros H. exists role. split; [reflexivity|].
    destruct content as [s|parts].
    + left. exists s. split; congruence.
    + right.
      destruct (mapM _ parts) as [chunks|e] eqn:Hmap; [|discriminate].
      simpl in H. injection H as <-.
      pose proof Hrole as Hcases. provider_cases Hcases.
      * right; left. exists parts.
        apply mapM_Ok_inv with (p := isTextPart)
          (g := fun p => TextChunk (part_text p)) in Hmap.
        -- destruct Hmap as (Hall & ->). auto.
        -- intros x y. unfold Rev2._generateContentChunk, isTextPart. cbn.
           rewrite andb_false_r, andb_true_r.
           destruct (part_type x =? "text"); [|discriminate].
           intros [= <-]; auto.
      * left. exists parts.
        apply mapM_Ok_inv with (p := fun p => isTextPart p || isImagePart p)
          (g := userChunk) in Hmap.
        -- destruct Hmap as (Hall & ->). auto.
        -- intros x y.
           unfold Rev2._generateContentChunk, userChunk, isTextPart, isImagePart.
           cbn. rewrite !andb_true_r.
           destruct (part_type x =? "image_url");
             [intros [= <-]; now rewrite orb_true_r|].
           destruct (part_type x =? "text"); [|discriminate].
           intros [= <-]; auto.
      * right; right. destruct parts as [|x parts]; [simpl in Hmap|].
        -- injection Hmap as <-. auto.
        -- simpl in Hmap. unfold Rev2._generateContentChunk in Hmap at 1.
           cbn in Hmap. rewrite !andb_false_r in Hmap. discriminate.
      * right; right. destruct parts as [|x parts]; [simpl in Hmap|].
        -- injection Hmap as <-. auto.
        -- simpl in Hmap. unfold Rev2._generateContentChunk in Hmap at 1.
           cbn in Hmap. rewrite !andb_false_r in Hmap. discriminate.
  - intros (role & Hrole & [(s & -> & ->)|[(parts & -> & -> & Hall & ->)
                            |[(parts & -> & -> & Hall & ->)|(-> & -> & Hr)]]]).
    + unfold Rev2.getContent. now rewrite Hrole.
    + now apply getContent_accepts.
    + now apply getContent_accepts.
    + unfold Rev2.getContent. now rewrite Hrole.
Qed.

(** X3.  Whatever the first revision's [getContent] returns, the second
    returns too; and the second returns nothing more, except for the empty
    array. *)
Theorem getContent_revisions_agree (content : MessageContent) (type : string)
  (c : MistralContent) :
  (Rev1.getContent content type = Ok c -> Rev2.getContent content type = Ok c)
  /\ (content <> ContentArray [] ->
      Rev2.getContent content type = Ok c -> Rev1.getContent content type = Ok c).
Proof.
  unfold Rev1.getContent, Rev2.getContent.
  destruct (getRole type) as [role|e] eqn:Hrole; simpl; [|split; auto].
  destruct content as [s|parts]; [split; auto|].
  assert (Hnonempty : forall role' : string,
    role' = "assistant" \/ role' = "tool" -> parts <> [] ->
    forall chunks,
      mapM (fun m => Rev2._generateContentChunk (ContentArray parts) m role') parts
      <> Ok chunks).
  { intros role' Hr Hne chunks. destruct parts as [|x parts']; [congruence|].
    cbn [mapM]. unfold Rev2._generateContentChunk at 1.
    destruct Hr as [-> | ->]; cbn; rewrite !andb_false_r; discriminate. }
  pose proof Hrole as Hcases. provider_cases Hcases; cbn.
  - split; [|intros _]; (destruct (mapM _ parts) as [chunks|e] eqn:Hmap at 1;
                         [|discriminate]); intros [= <-];
      match goal with
      | |- context [mapM ?g parts] => apply (mapM_Ok_mono _ g) in Hmap
      end; try (rewrite Hmap; reflexivity);
      intros x y _; unfold Rev2._generateContentChunk; cbn;
      rewrite andb_false_r, andb_true_r;
      destruct (part_type x =? "text"); trivial; discriminate.
  - split; [|intros _]; (destruct (mapM _ parts) as [chunks|e] eqn:Hmap at 1;
                         [|discriminate]); intros [= <-];
      match goal with
      | |- context [mapM ?g parts] => apply (mapM_Ok_mono _ g) in Hmap
      end; try (rewrite Hmap; reflexivity);
      intros x y _; unfold Rev2._generateContentChunk; cbn;
      rewrite !andb_true_r;
      destruct (part_type x =? "image_url"); trivial;
      destruct (part_type x =? "text"); trivial; discriminate.
  - split; [discriminate|]. intros Hne.
    destruct (mapM _ parts) as [chunks|e] eqn:Hmap; [|discriminate].
    exfalso. apply (Hnonempty "assistant" (or_introl eq_refl)) in Hmap; [trivial|].
    congruence.
  - split; [discriminate|]. intros Hne.
    destruct (mapM _ parts) as [chunks|e] eqn:Hmap; [|discriminate].
    exfalso. apply (Hnonempty "tool" (or_intror eq_refl)) in Hmap; [trivial|].
    congruence.
Qed.

(** *** Outbound message builder: tool calls and the first failure *)

(** X4.  [getTools] never returns an empty list.  It returns nothing
    exactly when the message is not an AI message with structured tool calls
    and has no legacy tool calls either; structured tool calls of an AI
    message take precedence, one provider call per tool call; otherwise the
    legacy calls are passed on in order, each with its id coerced and its
    function untouched. *)
Theorem getTools_never_empty (message : BaseMessage) :
  getTools message <> Some []
  /\ (getTools message = None <->
      isAIMessage message && hasLength (msg_tool_calls message) = false
      /\ hasLength (msg_kwargs_tool_calls message) = false)
  /\ (isAIMessage message && hasLength (msg_tool_calls message) = true ->
      exists calls l,
        msg_tool_calls message = Some calls
        /\ getTools message = Some l
        /\ List.length l = List.length calls)
  /\ (isAIMessage message && hasLength (msg_tool_calls message) = false ->
      forall l,
        getTools message = Some l ->
        exists raws,
          msg_kwargs_tool_calls message = Some raws
          /\ Forall2 (fun raw out =>
                        tc_id out
                        = option_map _convertToolCallIdToMistralCompatible (tc_id raw)
                        /\ tc_function out = tc_function raw) raws l).
Proof.
  unfold getTools.
  destruct (isAIMessage message && hasLength (msg_tool_calls message)) eqn:Hai.
  - apply andb_true_iff in Hai as (_ & Hlen).
    destruct (msg_tool_calls message) as [[|call calls]|]; try discriminate.
    split; [discriminate|]. split; [split; [discriminate|intros (H & _); discriminate]|].
    split; [|discriminate].
    intros _. do 2 eexists. repeat split. now rewrite !length_map.
  - destruct (msg_kwargs_tool_calls message) as [[|raw raws]|]; simpl.
    + split; [discriminate|]. split; [split; auto|].
      split; [discriminate|]. intros _ l H; discriminate.
    + split; [discriminate|].
      split; [split; [discriminate|intros (_ & H); discriminate]|].
      split; [discriminate|].
      intros _ l H. injection H as <-. eexists; split; [reflexivity|].
      constructor; [auto|].
      induction raws; simpl; constructor; auto.
    + split; [discriminate|]. split; [split; auto|].
      split; [discriminate|]. intros _ l H; discriminate.
Qed.

Lemma mapM_app_Throw {A B : Type} (f : A -> result B) (l1 l2 : list A)
  (x : A) (ys : list B) (e : Error) :
  mapM f l1 = Ok ys -> f x = Throw e -> mapM f (l1 ++ x :: l2) = Throw e.
Proof.
  revert ys; induction l1 as [|a l1 IH]; intros ys; simpl.
  - intros _ ->. reflexivity.
  - destruct (f a) as [b|e']; simpl; [|discriminate].
    destruct (mapM f l1) as [zs|e'] eqn:Hl; simpl; [|discriminate].
    intros _ Hx. now rewrite (IH zs eq_refl Hx).
Qed.

(** X5.  The builder stops at the first message whose content does not
    translate and throws that message's error, whatever follows it; a
    message whose type is outside the five known ones is such a message,
    with the unknown-type error, even when its content is a plain string. *)
Theorem convertMessages_first_failure (before after : list BaseMessage)
  (m : BaseMessage) :
  (exists outs, convertMessagesToMistralMessages before = Ok outs) ->
  (forall e,
     Rev1.getContent (msg_content m) (msg_type m) = Throw e ->
     convertMessagesToMistralMessages (before ++ m :: after) = Throw e)
  /\ (~ In (msg_type m) ["system"; "human"; "ai"; "tool"; "function"] ->
      convertMessagesToMistralMessages (before ++ m :: after)
      = Throw (UnknownMessageType (msg_type m))).
Proof.
  intros (outs & Hbefore).
  assert (Hthrow : forall e,
    Rev1.getContent (msg_content m) (msg_type m) = Throw e ->
    convertMessagesToMistralMessages (before ++ m :: after) = Throw e).
  { intros e He. apply mapM_app_Throw with (ys := outs); [exact Hbefore|].
    unfold convertMessage. now rewrite He. }
  split; [exact Hthrow|].
  intros Hout. apply Hthrow. unfold Rev1.getContent.
  assert (Hrole : getRole (msg_type m) = Throw (UnknownMessageType (msg_type m))).
  { unfold getRole.
    repeat match goal with
           | |- context [String.eqb (msg_type m) ?t] =>
               destruct (String.eqb_spec (msg_type m) t) as [Heq|_];
               [exfalso; apply Hout; rewrite Heq; in_list|]
           end.
    reflexivity. }
  now rewrite Hrole.
Qed.

(** *** Non-stream response decoder: totality and the id generator *)

Lemma freshId_snd (rng : Rng) : snd (freshId rng) = snd (uuidv4 rng).
Proof. unfold freshId. now destruct (uuidv4 rng). Qed.

Lemma decode_loop_rng (rawToolCalls : list MistralAIToolCall) (st : DecodeState) :
  decode_rng (fold_left decodeToolCall rawToolCalls st)
  = draws (List.length (filter parsesWithoutId rawToolCalls)) (decode_rng st).
Proof.
  revert st; induction rawToolCalls as [|raw raws IH]; intros st; simpl;
    [reflexivity|].
  rewrite IH. unfold decodeToolCall, parsesWithoutId.
  destruct (parseToolCall raw) as [[parsed|]|message]; try reflexivity.
  destruct (call_id parsed); [reflexivity|].
  pose proof (freshId_snd (decode_rng st)) as Hsnd.
  destruct (freshId (decode_rng st)) as [id rng']. simpl in *. now subst.
Qed.

(** X6.  The decoder throws only for a choice without a message.  For a
    message it always returns: an assistant message gives an AI message and
    draws one id per tool call that parses to a call without id, in order;
    any other role, or none, gives a human message with the content (the
    empty string when there is none), dropping tool calls and usage and
    leaving the id generator alone. *)
Theorem mistralAIResponseToChatMessage_total (message : ResponseMessage)
  (usage : option UsageInfo) (rng : Rng) :
  mistralAIResponseToChatMessage (mkResponseChoice None) usage rng
  = Throw NoMessageFound
  /\ (resp_role message = Some "assistant" ->
      exists tool_calls invalid_tool_calls,
        mistralAIResponseToChatMessage (mkResponseChoice (Some message)) usage rng
        = Ok (AIMessage (contentOrEmpty (resp_content message)) tool_calls
                invalid_tool_calls (usage_metadata_of usage),
              draws (List.length
                       (filter parsesWithoutId
                          match resp_tool_calls message with
                          | Some l => l
                          | None => []
                          end)) rng))
  /\ (resp_role message <> Some "assistant" ->
      mistralAIResponseToChatMessage (mkResponseChoice (Some message)) usage rng
      = Ok (HumanMessage (contentOrEmpty (resp_content message)), rng)).
Proof.
  split; [reflexivity|]. unfold mistralAIResponseToChatMessage; simpl. split.
  - intros ->. cbn. rewrite decode_loop_rng. simpl. eauto.
  - intros Hrole. destruct (resp_role message) as [role|]; [|reflexivity].
    destruct (String.eqb_spec role "assistant") as [->|_]; congruence.
Qed.

(** *** Streaming delta decoder: fragments, usage and the id generator *)

Lemma withIndex_nth (tool_calls : list MistralAIToolCall) (index : nat) (rng : Rng)
  (k : nat) (toolCall : MistralAIToolCall) :
  nth_error tool_calls k = Some toolCall ->
  exists fragment,
    nth_error (fst (withIndex tool_calls index rng)) k = Some fragment
    /\ itc_index fragment = (index + k)%nat
    /\ itc_function fragment = tc_function toolCall
    /\ forall id, tc_id toolCall = Some id -> itc_id fragment = id.
Proof.
  revert index rng k; induction tool_calls as [|t l IH]; intros index rng k;
    [destruct k; discriminate|].
  simpl.
  destruct (match tc_id t with Some id => (id, rng) | None => freshId rng end)
    as [id rng1] eqn:Hid.
  destruct (withIndex l (S index) rng1) as [rest rng2] eqn:Hrest.
  destruct k as [|k]; simpl.
  - intros [= <-]. eexists; split; [reflexivity|]. simpl.
    repeat split; [lia|]. intros id' Hid'. rewrite Hid' in Hid. congruence.
  - intros Hk. destruct (IH (S index) rng1 k Hk) as (f & Hf & Hi & Hfun & Hids).
    rewrite Hrest in Hf. exists f. repeat split; try assumption. lia.
Qed.

Lemma withIndex_rng (tool_calls : list MistralAIToolCall) (index : nat) (rng : Rng) :
  snd (withIndex tool_calls index rng)
  = draws (List.length (filter missingId tool_calls)) rng.
Proof.
  revert index rng; induction tool_calls as [|t l IH]; intros index rng; simpl;
    [reflexivity|].
  unfold missingId at 1.
  destruct (tc_id t) as [id|].
  - specialize (IH (S index) rng).
    destruct (withIndex l (S index) rng). simpl in *. assumption.
  - pose proof (freshId_snd rng) as Hsnd.
    destruct (freshId rng) as [id rng1]. simpl in Hsnd. subst rng1.
    specialize (IH (S index) (snd (uuidv4 rng))).
    destruct (withIndex l (S index) (snd (uuidv4 rng))). simpl in *. assumption.
Qed.

(** X7.  An assistant delta with tool calls becomes an assistant chunk
    with one tool-call chunk per tool call, in order: the chunk at position
    [k] has index [k], the name of the function called, the provider's id
    when there is one, and the arguments as a string (serialized when they
    came as an object); the chunk carries no [additional_kwargs]. *)
Theorem convertDelta_tool_call_chunks (delta : Delta) (usage : option UsageInfo)
  (rng : Rng) (first : MistralAIToolCall) (others : list MistralAIToolCall) :
  deltaRole delta = "assistant" ->
  delta_tool_calls delta = Some (first :: others) ->
  exists chunks rng',
    _convertDeltaToMessageChunk delta usage rng
    = Ok (Some (AIMessageChunk
                  match delta_content delta with Some c => c | None => "" end
                  (Some chunks) None (usage_metadata_of usage)), rng')
    /\ List.length chunks = S (List.length others)
    /\ forall k toolCall,
         nth_error (first :: others) k = Some toolCall ->
         exists chunk,
           nth_error chunks k = Some chunk
           /\ chunk_index chunk = k
           /\ chunk_name chunk = option_map fn_name (tc_function toolCall)
           /\ chunk_args chunk = chunkArgs toolCall
           /\ forall id, tc_id toolCall = Some id -> chunk_id chunk = id.
Proof.
  intros Hrole Hcalls.
  assert (Hne : negb (truthyString (delta_content delta))
                && negb (truthyArray (delta_tool_calls delta)) = false).
  { rewrite Hcalls; simpl. apply andb_false_r. }
  rewrite (convertDelta_nonempty delta usage rng Hne).
  unfold deltaRole in Hrole. rewrite Hrole. unfold fragments. rewrite Hcalls.
  cbn [hasLength String.eqb Ascii.eqb Bool.eqb].
  do 2 eexists. split; [reflexivity|]. split.
  - rewrite length_map, withIndex_length. reflexivity.
  - intros k toolCall Hk.
    destruct (withIndex_nth (first :: others) 0 rng k toolCall Hk)
      as (f & Hf & Hi & Hfun & Hids).
    exists (toToolCallChunk f). split; [now apply map_nth_error|].
    unfold toToolCallChunk, chunkArgs; simpl in *. rewrite Hfun.
    repeat split; try assumption.
    destruct (tc_function toolCall) as [fn|]; [|reflexivity].
    now destruct (fn_arguments fn) as [[s|j]|].
Qed.

(** X8.  The decoder returns nothing exactly for an empty delta without
    usage.  A chunk it returns carries the usage snapshot when the delta is
    empty (whatever its role) or its role is assistant, and no usage at all
    under any other role. *)
Theorem convertDelta_usage_attachment (delta : Delta) (usage : option UsageInfo)
  (rng : Rng) :
  exists r rng',
    _convertDeltaToMessageChunk delta usage rng = Ok (r, rng')
    /\ (r = None <-> isEmptyDelta delta = true /\ usage = None)
    /\ forall chunk,
         r = Some chunk ->
         chunkUsage chunk
         = if isEmptyDelta delta || (deltaRole delta =? "assistant")
           then usage_metadata_of usage
           else None.
Proof.
  unfold isEmptyDelta, deltaRole.
  destruct (negb (truthyString (delta_content delta))
            && negb (truthyArray (delta_tool_calls delta))) eqn:Hempty.
  - unfold _convertDeltaToMessageChunk. rewrite Hempty.
    destruct usage as [u|]; do 2 eexists; (split; [reflexivity|]); split.
    + split; [discriminate|intros (_ & H); discriminate].
    + intros chunk [= <-]. reflexivity.
    + split; auto.
    + discriminate.
  - rewrite (convertDelta_nonempty delta usage rng Hempty).
    rewrite firstFragmentId_total. cbn [orb].
    remember (if truthyString (delta_role delta)
              then match delta_role delta with
                   | Some r => r
                   | None => "assistant"
                   end
              else "assistant") as role eqn:Hr.
    clear Hr.
    assert (Hdone : forall (chunk : MessageChunk) (rng' : Rng),
      chunkUsage chunk
      = (if role =? "assistant" then usage_metadata_of usage else None) ->
      exists (r : option MessageChunk) (rng0 : Rng),
        @Ok (option MessageChunk * Rng) (Some chunk, rng') = Ok (r, rng0)
        /\ (r = None <-> false = true /\ usage = None)
        /\ forall chunk0,
             r = Some chunk0 ->
             chunkUsage chunk0
             = (if role =? "assistant" then usage_metadata_of usage else None)).
    { intros chunk rng' Hchunk. exists (Some chunk), rng'.
      split; [reflexivity|].
      split; [split; [discriminate|intros (H & _); discriminate]|].
      now intros chunk0 [= <-]. }
    destruct (String.eqb_spec role "user") as [Hu|_].
    { subst role. now apply Hdone. }
    revert Hdone. destruct (role =? "assistant"); intros Hdone;
      [now apply Hdone|].
    destruct (role =? "tool"); [now apply Hdone|].
    destruct (role =? "function"); now apply Hdone.
Qed.

(** X9.  The decoder never throws, under any role, and draws one id per
    tool call that has none, but nothing for an empty delta. *)
Theorem convertDelta_draws (delta : Delta) (usage : option UsageInfo) (rng : Rng) :
  exists r,
    _convertDeltaToMessageChunk delta usage rng
    = Ok (r, if isEmptyDelta delta then rng
             else draws (List.length
                           (filter missingId
                              match delta_tool_calls delta with
                              | Some l => l
                              | None => []
                              end)) rng).
Proof.
  unfold isEmptyDelta.
  destruct (negb (truthyString (delta_content delta))
            && negb (truthyArray (delta_tool_calls delta))) eqn:Hempty.
  - unfold _convertDeltaToMessageChunk. rewrite Hempty.
    destruct usage; eauto.
  - rewrite (convertDelta_nonempty delta usage rng Hempty).
    rewrite firstFragmentId_total.
    replace (match delta_tool_calls delta with
             | Some (t :: l) => snd (withIndex (t :: l) 0 rng)
             | _ => rng
             end)
      with (draws (List.length
                     (filter missingId
                        match delta_tool_calls delta with
                        | Some l => l
                        | None => []
                        end)) rng)
      by (destruct (delta_tool_calls delta) as [[|t l]|];
          [reflexivity|now rewrite withIndex_rng|reflexivity]).
    repeat match goal with
           | |- context [if String.eqb ?a ?b then _ else _] =>
               destruct (String.eqb a b)
           end; cbn [bind]; eauto.
Qed.

(** *** The stream of generation chunks: how it ends and what it yields *)

(** Before the abort signal an event never throws. *)
Lemma streamEvent_not_aborted (this : ChatMistralAI) (options : CallOptions)
  (data : option CompletionChunk) (rng : Rng) :
  exists r rng', streamEvent this options false data rng = Ok (r, rng').
Proof.
  unfold streamEvent. destruct data as [d|]; [|eauto].
  destruct (choices d) as [|choice rest]; [eauto|].
  destruct (choice_delta choice) as [| |delta]; eauto.
  destruct (convertDelta_never_throws delta
              (usageArgument this options (usage d)) rng) as (r & rng' & ->).
  destruct r; simpl; eauto.
Qed.


(** X10.  Events that arrive before the abort signal are processed as if
    there were no abort, and the first event that arrives after it ends the
    generator with the abort error: the chunks yielded are those of the
    events before it, and no later event is read. *)
Theorem streamResponseChunks_abort (this : ChatMistralAI) (options : CallOptions)
  (before after : list (bool * option CompletionChunk))
  (data : option CompletionChunk) (rng : Rng) :
  Forall (fun event => fst event = false) before ->
  _streamResponseChunks this options before rng
  = (fst (_streamResponseChunks this options before rng), None)
  /\ _streamResponseChunks this options (before ++ (true, data) :: after) rng
     = (fst (_streamResponseChunks this options before rng), Some AbortError).
Proof.
  intros Hbefore. revert rng.
  induction Hbefore as [|[aborted d] before Hfalse _ IH]; intros rng.
  - split; reflexivity.
  - simpl in Hfalse; subst aborted. cbn [app _streamResponseChunks].
    destruct (streamEvent_not_aborted this options d rng) as (r & rng' & ->).
    destruct (IH rng') as (Hok & Habort).
    destruct r as [chunk|]; [|split; assumption].
    rewrite Habort.
    destruct (_streamResponseChunks this options before rng') as [chunks ending].
    simpl in *. injection Hok as <-. split; reflexivity.
Qed.

(** X11.  Every chunk the generator yields comes from one of the events
    that arrived before the abort signal and whose first choice holds a
    delta: it carries that choice's index and the delta's content as text.
    There are never more chunks than events. *)
Theorem streamResponseChunks_yields (this : ChatMistralAI) (options : CallOptions)
  (events : list (bool * option CompletionChunk)) (rng : Rng) :
  Forall (yieldedFrom events) (fst (_streamResponseChunks this options events rng))
  /\ (List.length (fst (_streamResponseChunks this options events rng))
      <= List.length events)%nat.
Proof.
  assert (Hweaken : forall event events' chunks,
    Forall (yieldedFrom events') chunks ->
    Forall (yieldedFrom (event :: events')) chunks).
  { intros event events' chunks. apply Forall_impl.
    intros chunk (data & choice & rest & delta & Hin & H).
    exists data, choice, rest, delta. split; [now right|exact H]. }
  revert rng; induction events as [|[aborted data] events IH]; intros rng.
  - split; [constructor|reflexivity].
  - cbn [_streamResponseChunks].
    destruct aborted; [split; [constructor|simpl; lia]|].
    destruct (streamEvent this options false data rng) as [[r rng']|e] eqn:Hev;
      [|split; [constructor|simpl; lia]].
    destruct (IH rng') as (Hall & Hlen).
    destruct r as [chunk|].
    + destruct (_streamResponseChunks this options events rng') as [chunks ending].
      simpl in *. split; [|lia].
      constructor; [|now apply Hweaken].
      unfold streamEvent in Hev.
      destruct data as [d|]; [|discriminate].
      destruct (choices d) as [|choice rest] eqn:Hchoices; [discriminate|].
      destruct (choice_delta choice) as [| |delta] eqn:Hdelta; try discriminate.
      destruct (_convertDeltaToMessageChunk delta _ rng) as [[[message|] rng1]|e];
        simpl in Hev; try discriminate.
      injection Hev as <- <-.
      exists d, choice, rest, delta. repeat split; auto. now left.
    + split; [now apply Hweaken|simpl; lia].
Qed.


(** *** Aggregation: only the order within an index matters *)



(** *** The transport call: rethrowing twice *)

(** X14.  Passing an outcome through the handler a second time changes
    nothing: an error already marked with status 400 keeps its message and
    its status, any other outcome is passed on again. *)
Theorem completionWithRetry_idempotent (R : Type) (call : Completion R) :
  completionWithRetry (completionWithRetry call) = completionWithRetry call.
Proof.
  destruct call as [res|e]; [reflexivity|]. unfold completionWithRetry.
  destruct (isStatus400 e) eqn:H400.
  - unfold isStatus400 in *. simpl. now rewrite H400.
  - now rewrite H400.
Qed.

(** *** The non-streaming call: what it returns and when it throws *)

Lemma generation_inr (usage : option UsageInfo) (part : CompletionChoice)
  (rng rng' : Rng) (g : ChatGeneration) :
  generation usage part rng = inr (g, rng') ->
  acceptable part = true /\ generationFor usage part g.
Proof.
  unfold generation, acceptable, generationFor.
  destruct (part_delta part); [discriminate|].
  destruct (part_message part) as [[message|]|]; try discriminate.
  - unfold mistralAIResponseToChatMessage; simpl.
    destruct (resp_role message) as [role|] eqn:Hrole.
    + destruct (String.eqb_spec role "assistant") as [->|Hne];
        intros [= <- <-]; (split; [reflexivity|]); exists message; simpl;
        rewrite ?Hrole.
      * repeat split; reflexivity.
      * split; [reflexivity|]. split; [reflexivity|]. split; [reflexivity|].
        split; [|reflexivity]. intros [= ->]. now apply Hne.
    + intros [= <- <-]. split; [reflexivity|]. exists message; simpl.
      rewrite ?Hrole.
      split; [reflexivity|]. split; [reflexivity|]. split; [reflexivity|].
      split; [|reflexivity]. discriminate.
Qed.

Lemma generation_acceptable (usage : option UsageInfo) (part : CompletionChoice)
  (rng : Rng) :
  acceptable part = true -> exists g rng', generation usage part rng = inr (g, rng').
Proof.
  unfold generation, acceptable.
  destruct (part_delta part); [discriminate|].
  destruct (part_message part) as [[message|]|]; try discriminate. intros _.
  unfold mistralAIResponseToChatMessage; simpl.
  destruct (resp_role message) as [role|]; [destruct (role =? "assistant")|];
    eauto.
Qed.

Lemma generation_refusal (usage : option UsageInfo) (part : CompletionChoice)
  (rng : Rng) :
  acceptable part = false -> generation usage part rng = inl (refusal part).
Proof.
  unfold generation, acceptable, refusal.
  destruct (part_delta part); [reflexivity|].
  destruct (part_message part) as [[message|]|]; try discriminate; reflexivity.
Qed.

Lemma generationsOf_inr (usage : option UsageInfo) (parts : list CompletionChoice)
  (rng rng' : Rng) (gs : list ChatGeneration) :
  generationsOf usage parts rng = inr (gs, rng') ->
  forallb acceptable parts = true /\ Forall2 (generationFor usage) parts gs.
Proof.
  revert rng rng' gs; induction parts as [|part parts IH]; intros rng rng' gs; simpl.
  - intros [= <- _]. split; [reflexivity|constructor].
  - destruct (generation usage part rng) as [e|[g rng1]] eqn:Hg; [discriminate|].
    destruct (generationsOf usage parts rng1) as [e|[gs' rng2]] eqn:Hgs;
      [discriminate|].
    intros [= <- _]. apply generation_inr in Hg as (-> & Hg).
    destruct (IH _ _ _ Hgs) as (-> & Hall). split; [reflexivity|now constructor].
Qed.

Lemma generationsOf_acceptable (usage : option UsageInfo)
  (parts : list CompletionChoice) (rng : Rng) :
  forallb acceptable parts = true ->
  exists gs rng', generationsOf usage parts rng = inr (gs, rng').
Proof.
  revert rng; induction parts as [|part parts IH]; intros rng; simpl; [eauto|].
  intros (Hpart & Hparts)%andb_prop.
  destruct (generation_acceptable usage part rng Hpart) as (g & rng1 & ->).
  destruct (IH rng1 Hparts) as (gs & rng2 & ->). eauto.
Qed.

Lemma addTokens_reported (count : UsageInfo -> Z) (usage : option UsageInfo) :
  addTokens None (option_map count usage) = reported count usage.
Proof.
  destruct usage as [u|]; [|reflexivity]. simpl.
  now destruct (count u =? 0)%Z.
Qed.

(** X15.  The non-streaming call returns exactly when every choice of the
    response is acceptable (no delta, a message that is not undefined).  It
    then gives one generation per choice, in order, each with the text,
    finish reason and message of its choice, and a token usage that holds
    the response's counts except those that are zero. *)
Theorem generate_complete_returns (response : option ChatCompletionResponse)
  (rng : Rng) :
  ((exists res rng', _generate_complete (Returned response) rng = inr (res, rng'))
   <-> forallb acceptable (choicesOf response) = true)
  /\ (forall res rng',
        _generate_complete (Returned response) rng = inr (res, rng') ->
        Forall2 (generationFor (usageOf response)) (choicesOf response)
          (result_generations res)
        /\ result_tokenUsage res
           = mkTokenUsage (reported completionTokens (usageOf response))
               (reported promptTokens (usageOf response))
               (reported totalTokens (usageOf response))).
Proof.
  unfold _generate_complete. cbn [completionWithRetry].
  fold (usageOf response). fold (choicesOf response).
  rewrite !addTokens_reported.
  split; [split|].
  - intros (res & rng' & H).
    destruct (generationsOf (usageOf response) (choicesOf response) rng)
      as [e|[gs rng1]] eqn:Hgs; [discriminate|].
    now apply generationsOf_inr in Hgs.
  - intros Hall.
    destruct (generationsOf_acceptable (usageOf response) _ rng Hall)
      as (gs & rng1 & ->). eauto.
  - intros res rng'.
    destruct (generationsOf (usageOf response) (choicesOf response) rng)
      as [e|[gs rng1]] eqn:Hgs; [discriminate|].
    intros [= <- _]. simpl. split; [|reflexivity].
    now apply generationsOf_inr in Hgs.
Qed.

(** X16.  The first choice that is not acceptable ends the non-streaming
    call: with the delta error when it has a delta, else with the error of
    a missing message, whatever the later choices hold.  No generation of
    the earlier choices is returned. *)
Theorem generate_complete_first_refusal (response : option ChatCompletionResponse)
  (before after : list CompletionChoice) (bad : CompletionChoice) (rng : Rng) :
  choicesOf response = before ++ bad :: after ->
  forallb acceptable before = true ->
  acceptable bad = false ->
  _generate_complete (Returned response) rng = inl (refusal bad).
Proof.
  intros Hchoices Hbefore Hbad.
  unfold _generate_complete. cbn [completionWithRetry].
  fold (usageOf response). fold (choicesOf response). rewrite Hchoices.
  assert (Hloop : generationsOf (usageOf response) (before ++ bad :: after) rng
                  = inl (refusal bad)).
  { clear Hchoices. revert rng.
    induction before as [|part before IH]; intros rng; simpl.
    - now rewrite generation_refusal.
    - simpl in Hbefore. apply andb_prop in Hbefore as (Hpart & Hbefore).
      destruct (generation_acceptable (usageOf response) part rng Hpart)
        as (g & rng1 & ->).
      now rewrite IH. }
  now rewrite Hloop.
Qed.

(** *** Tools: from binding to the request *)

Lemma convertTool_provider (tools : list MistralAITool) :
  _convertToolToMistralTool (map ProviderTool tools) = tools.
Proof.
  unfold _convertToolToMistralTool. rewrite map_map. apply map_id.
Qed.

(** X17.  Tools bound with [bindTools] reach the request converted once:
    the request built from the bound options holds the tools that the
    request built from the unconverted list holds, although the conversion
    runs a second time on the bound tools.  A [tools] property of [kwargs],
    even an undefined one, replaces the bound tools. *)
Theorem bindTools_request_tools (this : ModelFields)
  (tools : list ChatMistralAIToolType) (kwargs : option PartialCallOptions) :
  params_tools (invocationParams this (Some (bindTools tools kwargs)))
  = match ownTools kwargs with
    | Some own => requestTools own
    | None => requestTools (Some tools)
    end.
Proof.
  assert (Hbound : forall l : list MistralAITool,
    match map ProviderTool l with
    | [] => None
    | tool :: rest => Some (_convertToolToMistralTool (tool :: rest))
    end = match l with [] => None | _ => Some l end).
  { intros [|t l]; [reflexivity|].
    pose proof (convertTool_provider (t :: l)) as Hsame.
    cbn [map] in Hsame |- *. now rewrite Hsame. }
  unfold invocationParams, bindTools, ownTools, requestTools.
  destruct kwargs as [k|]; simpl.
  - destruct (kwargs_tools k) as [own|]; [reflexivity|].
    rewrite Hbound. now destruct tools.
  - rewrite Hbound. now destruct tools.
Qed.

(** X18.  A request never carries an empty tool list: its tools are absent
    or a list that is not empty, and then the call options hold a tool list
    with the same names in the same order. *)
Theorem invocationParams_tools (this : ModelFields)
  (options : option ParsedCallOptions) :
  match params_tools (invocationParams this options) with
  | None =>
      forall o tools, options = Some o -> options_tools o = Some tools -> tools = []
  | Some sent =>
      sent <> []
      /\ exists o tools,
           options = Some o /\ options_tools o = Some tools
           /\ map (fun t => function_name (tool_function t)) sent
              = map toolName tools
  end.
Proof.
  assert (Hnames : forall tools,
    map (fun t => function_name (tool_function t)) (_convertToolToMistralTool tools)
    = map toolName tools).
  { intros tools. unfold _convertToolToMistralTool. rewrite map_map.
    apply map_ext. now intros [t|name description schema]. }
  unfold invocationParams. destruct options as [o|]; simpl.
  - destruct (options_tools o) as [[|tool rest]|] eqn:Htools; simpl.
    + intros o' tools [= <-] Htools'. rewrite Htools in Htools'.
      now injection Htools' as <-.
    + split; [discriminate|]. exists o, (tool :: rest).
      split; [reflexivity|]. split; [assumption|].
      apply (Hnames (tool :: rest)).
    + intros o' tools [= <-] Htools'. rewrite Htools in Htools'. discriminate.
  - discriminate.
Qed.

(** *** Usage over the whole stream *)

Lemma convertDelta_chunk_usage (delta : Delta) (usage : option UsageInfo)
  (rng rng' : Rng) (chunk : MessageChunk) :
  _convertDeltaToMessageChunk delta usage rng = Ok (Some chunk, rng') ->
  chunkUsage chunk = None \/ chunkUsage chunk = usage_metadata_of usage.
Proof.
  destruct (negb (truthyString (delta_content delta))
            && negb (truthyArray (delta_tool_calls delta))) eqn:Hempty.
  - unfold _convertDeltaToMessageChunk. rewrite Hempty.
    destruct usage as [u|]; [|discriminate]. intros [= <- _]. now right.
  - rewrite (convertDelta_nonempty delta usage rng Hempty).
    rewrite firstFragmentId_total.
    repeat match goal with
           | |- context [if ?b then _ else _] => destruct b
           end;
      intros [= <- _]; simpl; auto.
Qed.

(** X19.  A chunk of the stream carries no usage metadata or that of an
    event that arrived before the abort signal, and the latter only when
    usage reporting is on for the call: with the instance flag off and no
    call option, no chunk of the stream reports usage. *)
Theorem streamResponseChunks_usage (this : ChatMistralAI) (options : CallOptions)
  (events : list (bool * option CompletionChunk)) (rng : Rng) :
  Forall (fun chunk =>
            chunkUsage (gen_message chunk) = None
            \/ (truthy (shouldStreamUsage this options) = true
                /\ exists data,
                     In (false, Some data) events
                     /\ chunkUsage (gen_message chunk)
                        = usage_metadata_of (usage data)))
    (fst (_streamResponseChunks this options events rng)).
Proof.
  revert rng; induction events as [|[aborted data] events IH]; intros rng;
    [constructor|].
  assert (Hweaken : forall chunks,
    Forall (fun chunk =>
              chunkUsage (gen_message chunk) = None
              \/ (truthy (shouldStreamUsage this options) = true
                  /\ exists data,
                       In (false, Some data) events
                       /\ chunkUsage (gen_message chunk)
                          = usage_metadata_of (usage data))) chunks ->
    Forall (fun chunk =>
              chunkUsage (gen_message chunk) = None
              \/ (truthy (shouldStreamUsage this options) = true
                  /\ exists data',
                       In (false, Some data') ((aborted, data) :: events)
                       /\ chunkUsage (gen_message chunk)
                          = usage_metadata_of (usage data'))) chunks).
  { apply Forall_impl. intros chunk [Hnone|(Hon & d & Hin & Hd)]; [now left|].
    right. split; [assumption|]. exists d. split; [now right|assumption]. }
  cbn [_streamResponseChunks].
  destruct (streamEvent this options aborted data rng) as [[[chunk|] rng']|e] eqn:Hev;
    [| now apply Hweaken, IH | constructor].
  specialize (IH rng').
  destruct (_streamResponseChunks this options events rng') as [chunks ending].
  simpl in *. constructor; [|now apply Hweaken].
  unfold streamEvent in Hev.
  destruct aborted; [discriminate|].
  destruct data as [d|]; [|discriminate].
  destruct (choices d) as [|choice rest]; [discriminate|].
  destruct (choice_delta choice) as [| |delta]; try discriminate.
  destruct (_convertDeltaToMessageChunk delta _ rng) as [[[message|] rng1]|e] eqn:Hd;
    simpl in Hev; try discriminate.
  injection Hev as <- <-. simpl.
  apply convertDelta_chunk_usage in Hd. unfold usageArgument in Hd.
  destruct (truthy (shouldStreamUsage this options)).
  - destruct Hd as [Hnone|Hd]; [now left|]. right. split; [reflexivity|].
    exists d. split; [now left|assumption].
  - left. now destruct Hd.
Qed.

End ChatMistralAI.

(** The interleaved stream of choices 0, 1, 0, 2, 1, 0: three generations,
    in index order, each the concatenation of its chunks as they arrived. *)
Example generations_interleaved :
  map gen_text (generations Sample.concat Sample.stream) = ["abc"; "xy"; "p"]
  /\ map completionIndex (generations Sample.concat Sample.stream) = [0; 1; 2].
Proof. split; reflexivity. Qed.

(** Negative indices are property keys like any other string, listed after
    the array indices; the sort still puts them first. *)
Example generations_negative_index :
  map gen_text
    (generations Sample.concat
       [Sample.chunk 5 "a"; Sample.chunk (-1) "n"; Sample.chunk 5 "b";
        Sample.chunk 0 "z"])
  = ["n"; "z"; "ab"].
Proof. reflexivity. Qed.


(** Beyond the safe integers the order breaks.  The key of the index 10^21
    is "1e+21", which is no array index and reads back as 1: its
    generation comes before that of the index 5. *)
Lemma generations_index_1e21_comes_first :
  Number_toString (10 ^ 21) = "1e+21"
  /\ parseInt "1e+21" = Some 1
  /\ generations Sample.concat
       [Sample.chunk 5 "a"; Sample.chunk (10 ^ 21) "b"]
     = [Sample.chunk (10 ^ 21) "b"; Sample.chunk 5 "a"].
Proof. repeat split; vm_compute; reflexivity. Qed.

(** The role mapper on a tag outside the closed set, and on human. *)
Lemma getRole_closed_role_set_witness :
  getRole "generic" = Throw (UnknownMessageType "generic")
  /\ (In "human" ["system"; "human"; "ai"; "tool"; "function"]
      /\ In "user" ["system"; "user"; "assistant"; "tool"]).
Proof.
  destruct getRole_closed_role_set as (_ & _ & _ & _ & _ & Hout & Hin).
  split.
  - apply Hout. simpl. intros [H|[H|[H|[H|[H|[]]]]]]; discriminate.
  - apply Hin. reflexivity.
Defined.

(** A system message, a human message with a text and an image part, an AI
    message that calls a tool and the tool's result. *)
Example convertMessages_conversation :
  convertMessagesToMistralMessages Sample.coerceId Sample.toOpenAI
    Sample.messages
  = Ok [ PlainMessage "system" (MistralString "be brief");
         PlainMessage "user"
           (MistralChunks [TextChunk (Some "hi");
                           ImageURLChunk (Some "https://example.org/a.png")]);
         AssistantMessage "assistant" (MistralString "")
           (Some [Sample.goodCall]);
         ToolResultMessage "tool" (MistralString "42") (Some "lookup")
           "call00001" ].
Proof. reflexivity. Qed.

(** The builder theorem at the four-message conversation. *)
Lemma convertMessagesToMistralMessages_one_to_one_witness :
  (exists out,
     convertMessagesToMistralMessages Sample.coerceId Sample.toOpenAI
       Sample.messages = Ok out)
  /\ forall out,
       convertMessagesToMistralMessages Sample.coerceId Sample.toOpenAI
         Sample.messages = Ok out ->
       List.length out = 4%nat.
Proof.
  destruct (convertMessagesToMistralMessages_one_to_one
              Sample.coerceId Sample.toOpenAI Sample.messages) as [Hiff Hshape].
  split.
  - apply Hiff. repeat constructor; eexists; reflexivity.
  - intros out H. exact (proj1 (Hshape out H)).
Defined.

(** One well-formed call, one call whose arguments do not parse and one
    well-formed call without an id: two tool calls, the second with a drawn
    id, and one invalid tool call. *)
Example decode_mixed_tool_calls :
  mistralAIResponseToChatMessage Sample.Rng Sample.uuidv4
    Sample.parseToolCall Sample.InvalidToolCall Sample.makeInvalidToolCall
    (mkResponseChoice (Some Sample.response)) None 0%nat
  = Ok (AIMessage _ (MistralString "")
          [ mkToolCall "lookup" (JObject []) (Some "call00001");
            mkToolCall "lookup" (JObject []) (Some "1b9d6bcdbbfd4b2d9b5d0") ]
          [ (Sample.brokenCall, "Unexpected end of JSON input") ]
          None, 1%nat).
Proof. reflexivity. Qed.

(** The decoder theorem at the response with one broken tool call: the
    call without id gets the first uuid drawn, without its dashes. *)
Lemma mistralAIResponseToChatMessage_recovers_witness :
  resp_role Sample.response = Some "assistant"
  /\ exists tool_calls,
       mistralAIResponseToChatMessage Sample.Rng Sample.uuidv4
         Sample.parseToolCall Sample.InvalidToolCall Sample.makeInvalidToolCall
         (mkResponseChoice (Some Sample.response)) None 0%nat
       = Ok (AIMessage _ (MistralString "") tool_calls
               [(Sample.brokenCall, "Unexpected end of JSON input")] None, 1%nat)
       /\ nth_error tool_calls 1
          = Some (mkToolCall "lookup" (JObject [])
                    (Some (withoutDashes (fst (Sample.uuidv4 0%nat)))))
       /\ List.length tool_calls = 2%nat.
Proof.
  split; [reflexivity|].
  destruct (mistralAIResponseToChatMessage_recovers_invalid_tool_calls
              Sample.Rng Sample.uuidv4 Sample.parseToolCall
              Sample.InvalidToolCall Sample.makeInvalidToolCall
              Sample.response None 0%nat eq_refl)
    as (tool_calls & Hdecoded & Hcalls & Hlen & _).
  exists tool_calls. split; [exact Hdecoded|]. split; [|exact Hlen].
  exact (Hcalls [Sample.goodCall; Sample.brokenCall] Sample.anonymousCall []
           (mkToolCall "lookup" (JObject []) None) eq_refl eq_refl).
Defined.

(** A tool delta with fragments takes the id of the first one; without
    fragments but with content it takes the empty string; without either it
    is skipped. *)
Example convertDelta_tool_examples :
  _convertDeltaToMessageChunk Sample.JSON_stringify Sample.Rng
    Sample.uuidv4 Sample.toolDelta None 7%nat
  = Ok (Some (ToolMessageChunk "42" None "call00001"), 8%nat)
  /\ _convertDeltaToMessageChunk Sample.JSON_stringify Sample.Rng
       Sample.uuidv4 (mkDelta (Some "tool") (Some "42") None) None 7%nat
     = Ok (Some (ToolMessageChunk "42" (Some tt) ""), 7%nat)
  /\ _convertDeltaToMessageChunk Sample.JSON_stringify Sample.Rng
       Sample.uuidv4 (mkDelta (Some "tool") None None) None 7%nat
     = Ok (None, 7%nat).
Proof. repeat split. Qed.

(** The tool-delta theorem at a delta with two fragments. *)
Lemma convertDelta_tool_reference_id_witness :
  delta_role Sample.toolDelta = Some "tool"
  /\ exists kwargs rng',
       _convertDeltaToMessageChunk Sample.JSON_stringify Sample.Rng
         Sample.uuidv4 Sample.toolDelta None 7%nat
       = Ok (Some (ToolMessageChunk "42" kwargs "call00001"), rng').
Proof.
  split; [reflexivity|].
  apply (convertDelta_tool_reference_id Sample.JSON_stringify
           Sample.Rng Sample.uuidv4 Sample.toolDelta None 7%nat eq_refl).
  left; reflexivity.
Defined.

(** A message that matches only once lowercased, and one that does not
    match at all. *)
Lemma completionWithRetry_rethrows_witness :
  @completionWithRetry unit
    (Thrown (mkJsError (Some "API error occurred: Status 400 Bad Request") None))
  = Thrown (mkJsError (Some "API error occurred: Status 400 Bad Request") (Some 400))
  /\ @completionWithRetry unit (Thrown (mkJsError (Some "fetch failed") None))
     = Thrown (mkJsError (Some "fetch failed") None).
Proof.
  split.
  - apply (completionWithRetry_rethrows unit
             (mkJsError (Some "API error occurred: Status 400 Bad Request") None));
      [reflexivity|]. right; left; reflexivity.
  - apply (completionWithRetry_rethrows unit (mkJsError (Some "fetch failed") None)).
    intros message [= <-]. repeat split.
Defined.

(** A model built with defaults still reports usage on a call that passes
    [streamUsage: false]. *)
Lemma streamUsage_not_disabled_per_call_witness :
  truthy (shouldStreamUsage (constructor None) (mkCallOptions (Some false))) = true
  /\ usageArgument (constructor None) (mkCallOptions (Some false))
       (Some (mkUsageInfo 3 10 13))
     = Some (mkUsageInfo 3 10 13).
Proof.
  apply (streamUsage_not_disabled_per_call None (mkCallOptions (Some false))
           (Some (mkUsageInfo 3 10 13))).
  intros (f & [=] & _).
Defined.

(** An event with no choice that arrives after the abort signal has fired
    is not skipped: it throws. *)
Lemma streamEvent_aborted_empty_event_throws :
  choices (mkCompletionChunk [] None) = []
  /\ streamEvent Sample.JSON_stringify Sample.Rng Sample.uuidv4
       (constructor None) (mkCallOptions None) true
       (Some (mkCompletionChunk [] None)) 0%nat
     = Throw AbortError
  /\ streamEvent Sample.JSON_stringify Sample.Rng Sample.uuidv4
       (constructor None) (mkCallOptions None) true
       (Some (mkCompletionChunk [] None)) 0%nat
     <> Ok (None, 0%nat).
Proof. repeat split. discriminate. Qed.

(** An event whose first choice has no delta is skipped even though its
    second choice has one. *)
Lemma streamEvent_reads_first_choice_witness :
  streamEvent Sample.JSON_stringify Sample.Rng Sample.uuidv4
    (constructor None) (mkCallOptions None) false
    (Some (mkCompletionChunk
             [ mkStreamChoice (Some 0) DeltaMissing;
               mkStreamChoice (Some 1)
                 (DeltaPresent (mkDelta None (Some "ignored") None)) ]
             None)) 0%nat
  = Ok (None, 0%nat).
Proof.
  apply (streamEvent_reads_first_choice Sample.JSON_stringify
           Sample.Rng Sample.uuidv4 (constructor None) (mkCallOptions None) false
           (mkStreamChoice (Some 0) DeltaMissing)
           [ mkStreamChoice (Some 1)
               (DeltaPresent (mkDelta None (Some "ignored") None)) ]
           None 0%nat);
    [reflexivity|left; reflexivity].
Defined.

(** The conversation followed by a message of an unknown type and one more
    message: the builder stops at the unknown type. *)
Lemma convertMessages_first_failure_witness :
  convertMessagesToMistralMessages Sample.coerceId Sample.toOpenAI
    (Sample.messages
     ++ mkBaseMessage "generic" (ContentString "note") None None None None
        :: [mkBaseMessage "human" (ContentString "more") None None None None])
  = Throw (UnknownMessageType "generic").
Proof.
  apply (convertMessages_first_failure Sample.coerceId Sample.toOpenAI
           Sample.messages
           [mkBaseMessage "human" (ContentString "more") None None None None]
           (mkBaseMessage "generic" (ContentString "note") None None None None)).
  - eexists; reflexivity.
  - simpl. intros [H|[H|[H|[H|[H|[]]]]]]; discriminate H.
Defined.

(** A delta without a role and with two tool calls: an assistant chunk with
    two tool-call chunks. *)
Lemma convertDelta_tool_call_chunks_witness :
  exists chunks rng',
    _convertDeltaToMessageChunk Sample.JSON_stringify Sample.Rng Sample.uuidv4
      (mkDelta None None (Some [Sample.goodCall; Sample.anonymousCall])) None 3%nat
    = Ok (Some (AIMessageChunk "" (Some chunks) None None), rng')
    /\ List.length chunks = 2%nat.
Proof.
  destruct (convertDelta_tool_call_chunks Sample.JSON_stringify Sample.Rng
              Sample.uuidv4
              (mkDelta None None (Some [Sample.goodCall; Sample.anonymousCall]))
              None 3%nat Sample.goodCall [Sample.anonymousCall]
              eq_refl eq_refl) as (chunks & rng' & Hchunk & Hlen & _).
  exists chunks, rng'. split; assumption.
Defined.

(** One event before the abort signal, one after it and one more: the
    stream is that of the first event and ends with the abort error. *)
Lemma streamResponseChunks_abort_witness :
  _streamResponseChunks Sample.JSON_stringify Sample.Rng Sample.uuidv4
    (constructor None) (mkCallOptions None)
    ([(false,
       Some (mkCompletionChunk
               [mkStreamChoice (Some 0)
                  (DeltaPresent (mkDelta None (Some "hi") None))] None))]
     ++ (true, None)
        :: [(false,
             Some (mkCompletionChunk
                     [mkStreamChoice (Some 0)
                        (DeltaPresent (mkDelta None (Some "late") None))] None))])
    0%nat
  = (fst (_streamResponseChunks Sample.JSON_stringify Sample.Rng Sample.uuidv4
            (constructor None) (mkCallOptions None)
            [(false,
              Some (mkCompletionChunk
                      [mkStreamChoice (Some 0)
                         (DeltaPresent (mkDelta None (Some "hi") None))] None))]
            0%nat),
     Some AbortError).
Proof.
  apply (streamResponseChunks_abort Sample.JSON_stringify Sample.Rng
           Sample.uuidv4 (constructor None) (mkCallOptions None)
           [(false,
             Some (mkCompletionChunk
                     [mkStreamChoice (Some 0)
                        (DeltaPresent (mkDelta None (Some "hi") None))] None))]
           [(false,
             Some (mkCompletionChunk
                     [mkStreamChoice (Some 0)
                        (DeltaPresent (mkDelta None (Some "late") None))] None))]
           None 0%nat).
  repeat constructor.
Defined.


(** A response whose second choice has a delta: the call throws the delta
    error although the first and the third choice are acceptable. *)
Lemma generate_complete_first_refusal_witness :
  _generate_complete Sample.Rng Sample.uuidv4 Sample.parseToolCall
    Sample.InvalidToolCall Sample.makeInvalidToolCall
    (Returned
       (Some (mkChatCompletionResponse None
                (Some [mkCompletionChoice false (Some (Some Sample.response))
                         (Some "stop");
                       mkCompletionChoice true (Some (Some Sample.response)) None;
                       mkCompletionChoice false (Some (Some Sample.response))
                         None]))))
    0%nat
  = inl DeltaNotSupported.
Proof.
  apply (generate_complete_first_refusal Sample.Rng Sample.uuidv4
           Sample.parseToolCall Sample.InvalidToolCall Sample.makeInvalidToolCall
           (Some (mkChatCompletionResponse None
                    (Some [mkCompletionChoice false (Some (Some Sample.response))
                             (Some "stop");
                           mkCompletionChoice true (Some (Some Sample.response))
                             None;
                           mkCompletionChoice false (Some (Some Sample.response))
                             None])))
           [mkCompletionChoice false (Some (Some Sample.response)) (Some "stop")]
           [mkCompletionChoice false (Some (Some Sample.response)) None]
           (mkCompletionChoice true (Some (Some Sample.response)) None) 0%nat);
    reflexivity.
Defined.
